(** * Password-reset backend: a shallow embedding of the Express/Mongoose code

    The repository holds a Mongoose [User] model (src/models/User.js), an
    error-handling middleware (src/middleware/errorHandler.js) and two
    revisions of the authentication router (both in src/unnamed/part_001):

    - the first revision (lines 1-149, "routes/auth.js" with the doc header)
      offers forgot-password, validate-reset-token and reset-password; it
      hashes the new password itself before [user.save()];
    - the second revision (lines 150-366) adds register and login and leaves
      the hashing to the model's pre-save hook.

    They are embedded as the modules [AuthV1] and [AuthV2] over one model of
    the document store.  Everything the handlers read from the outside world
    (the clock, the random token, the bcrypt salts, the outcome of the SMTP
    transport) is an explicit input, the [Env] record; the database and the
    mail outbox are threaded through as state.

    Strings are modelled as ASCII strings: [toLowerCase], [trim], [length]
    and the regular-expression classes of the source are given their meaning
    on code points below 128. *)

From Stdlib Require Import ZArith String Ascii List Bool Lia.
From stdpp Require Import base option list.
Import ListNotations.

Open Scope string_scope.
Open Scope Z_scope.

(** ** JavaScript strings *)

Module Js.

Definition charCode (c : ascii) : nat := nat_of_ascii c.

Definition inRange (lo hi : ascii) (c : ascii) : bool :=
  (Nat.leb (charCode lo) (charCode c) && Nat.leb (charCode c) (charCode hi))%bool.

(** The character classes of the password regular expressions. *)
Definition isUpper (c : ascii) : bool := inRange "A" "Z" c.
Definition isLower (c : ascii) : bool := inRange "a" "z" c.
Definition isDigit (c : ascii) : bool := inRange "0" "9" c.
Definition isAlnum (c : ascii) : bool := (isUpper c || isLower c || isDigit c)%bool.

(** [/[cls]/.test(s)]: some character of [s] is in the class. *)
Fixpoint test (cls : ascii -> bool) (s : string) : bool :=
  match s with
  | EmptyString => false
  | String c r => (cls c || test cls r)%bool
  end.

(** [String.prototype.toLowerCase]. *)
Definition lowerChar (c : ascii) : ascii :=
  if isUpper c then ascii_of_nat (charCode c + 32) else c.

Fixpoint toLowerCase (s : string) : string :=
  match s with
  | EmptyString => EmptyString
  | String c r => String (lowerChar c) (toLowerCase r)
  end.

(** White space as [String.prototype.trim] sees it (TAB, LF, VT, FF, CR, SP). *)
Definition isSpace (c : ascii) : bool :=
  (inRange "009" "013" c || Nat.eqb (charCode c) 32)%bool.

Fixpoint trimStart (s : string) : string :=
  match s with
  | EmptyString => EmptyString
  | String c r => if isSpace c then trimStart r else s
  end.

Fixpoint trimEnd (s : string) : string :=
  match s with
  | EmptyString => EmptyString
  | String c r =>
      match trimEnd r with
      | EmptyString => if isSpace c then EmptyString else String c EmptyString
      | r' => String c r'
      end
  end.

Definition trim (s : string) : string := trimEnd (trimStart s).

(** [s.length], as a number. *)
Definition length (s : string) : Z := Z.of_nat (String.length s).

(** The values a JSON request body can hold in one field; [JUndefined]
    is a field that is absent, [JObj] any object or array. *)
Inductive Val : Type :=
| JUndefined
| JNull
| JBool (b : bool)
| JNum (n : Z)
| JStr (s : string)
| JObj.

(** [!!v] *)
Definition truthy (v : Val) : bool :=
  match v with
  | JUndefined | JNull => false
  | JBool b => b
  | JNum n => negb (n =? 0)
  | JStr s => negb (String.eqb s "")
  | JObj => true
  end.

(** [typeof v] *)
Definition typeof (v : Val) : string :=
  match v with
  | JUndefined => "undefined"
  | JNull | JObj => "object"
  | JBool _ => "boolean"
  | JNum _ => "number"
  | JStr _ => "string"
  end.

End Js.

(** ** Errors, responses and the error-handling middleware *)

(** A thrown JavaScript error, reduced to the properties the error handlers
    read: a numeric [code] (MongoDB's server errors carry one), [statusCode],
    [status] and [message]. *)
Record JsError : Type := mkError {
  err_code : option Z;
  err_statusCode : option Z;
  err_status : option Z;
  err_message : string
}.

Definition Error (msg : string) : JsError := mkError None None None msg.

(** [TypeError]: a method called on a value that has none of that name. *)
Definition TypeError (msg : string) : JsError := Error msg.

(** Mongoose's validation failure, raised by [save] before the pre-save
    hook; [msgs] are the messages of the paths that failed. *)
Definition ValidationError (msgs : list string) : JsError :=
  Error ("User validation failed: " ++ String.concat ", " msgs).

(** MongoDB's duplicate-key error of a unique index. *)
Definition E11000 : JsError :=
  mkError (Some 11000) None None "E11000 duplicate key error".

(** What a handler sends: [res.status(s).json({success, message, user})];
    [res.json] alone sends status 200. *)
Record Response : Type := mkResponse {
  res_status : Z;
  res_success : bool;
  res_message : string;
  res_user : option (nat * string)
}.

Definition json (status : Z) (success : bool) (message : string) : Response :=
  mkResponse status success message None.

(** [x || d] on an optional number and on a string. *)
Definition orNum (x : option Z) (d : Z) : Z :=
  match x with
  | Some n => if n =? 0 then d else n
  | None => d
  end.

Definition orStr (x d : string) : string :=
  if String.eqb x "" then d else x.

(** src/middleware/errorHandler.js *)
Definition errorHandler (err : JsError) : Response :=
  match err_code err with
  | Some 11000 => json 400 false "Email already exists"
  | _ => json (orNum (err_statusCode err) 500) false
              (orStr (err_message err) "Internal Server Error")
  end.

(** The global error handler that server.js installs (part_001, 391-406);
    it reads [err.status] where the middleware file reads [err.statusCode]. *)
Definition globalErrorHandler (err : JsError) : Response :=
  match err_code err with
  | Some 11000 => json 400 false "Email already exists"
  | _ => json (orNum (err_status err) 500) false
              (orStr (err_message err) "Internal Server Error")
  end.

(** ** The bcrypt library

    bcryptjs is an external collaborator: [bcrypt_hash s salt] is
    [bcrypt.hash(s, salt)] and [bcrypt_compare s digest] is
    [bcrypt.compare(s, digest)] on two strings. *)
Class Bcrypt : Type := {
  bcrypt_hash : string -> string -> string;
  bcrypt_compare : string -> string -> bool
}.

(** bcrypt reads no more than the first 72 bytes of a password, and
    bcryptjs cuts a longer one silently; neither handler sets a maximal
    length.  Over the ASCII strings of this development a byte is a
    character. *)
Definition bcrypt_read (s : string) : string := substring 0 72 s.
Arguments bcrypt_read : simpl never.

(** What bcryptjs does: a digest verifies every password that reads as the
    one it was derived from, is in modular-crypt format, starting with a
    dollar sign, and is no shorter than the schema's [minlength] (a bcrypt
    digest has 60 characters). *)
Class BcryptLaws (B : Bcrypt) : Prop := {
  compare_hash : forall s t salt,
    bcrypt_read t = bcrypt_read s -> bcrypt_compare t (bcrypt_hash s salt) = true;
  hash_format : forall s salt, exists r, bcrypt_hash s salt = String "$" r;
  hash_minlength : forall s salt, 8 <= Js.length (bcrypt_hash s salt)
}.

(** The idealisation of collision resistance, kept apart from the laws
    above and assumed only where a login is shown to fail: a digest
    verifies no password that reads otherwise. *)
Class BcryptIdeal (B : Bcrypt) : Prop := {
  compare_sound : forall s t salt,
    bcrypt_compare t (bcrypt_hash s salt) = true -> bcrypt_read t = bcrypt_read s
}.

(** A symbolic instance of the interface, with which the statements below
    are evaluated on concrete requests: the digest is what bcrypt reads of
    the plaintext behind a fixed header, whatever the salt. *)
Definition symbolic_bcrypt : Bcrypt := {|
  bcrypt_hash := fun s _ => "$2b$sym$" ++ bcrypt_read s;
  bcrypt_compare := fun s digest => String.eqb digest ("$2b$sym$" ++ bcrypt_read s)
|}.

(** ** The user collection *)

(** A stored document of the [User] model (src/models/User.js, 6-25).
    Its [_id] is its position in the collection. *)
Record UserDoc : Type := mkUser {
  fullName : string;
  email : string;
  password : string;
  resetPasswordToken : option string;
  resetPasswordExpire : option Z
}.

(** What the outside world hands to one request. *)
Record Env : Type := mkEnv {
  now : Z;                  (* Date.now() *)
  randomBytesHex : string;  (* crypto.randomBytes(20).toString('hex') *)
  routeSalt : string;       (* bcrypt.genSalt(12) in the router *)
  hookSalt : string;        (* bcrypt.genSalt(10) in the pre-save hook *)
  smtpConfigured : bool;    (* SMTP_* and FRONTEND_URL are all set *)
  sendMailOk : bool         (* transporter.sendMail resolves *)
}.

(** The state the handlers act on: the collection and the mails sent,
    each a recipient and a reset token. *)
Record World : Type := mkWorld {
  db : list UserDoc;
  outbox : list (string * string)
}.

(** An awaited operation: it may throw, and it may change the state. *)
Inductive Result (A : Type) : Type :=
| Ok (a : A)
| Throw (e : JsError).
Arguments Ok {A} a.
Arguments Throw {A} e.

Definition Async (A : Type) : Type := World -> Result A * World.

Definition ret {A} (a : A) : Async A := fun w => (Ok a, w).
Definition throw {A} (e : JsError) : Async A := fun w => (Throw e, w).
Definition bind {A B} (m : Async A) (k : A -> Async B) : Async B :=
  fun w =>
    match m w with
    | (Ok a, w') => k a w'
    | (Throw e, w') => (Throw e, w')
    end.

Notation "'await' x <- m ; k" := (bind m (fun x => k))
  (at level 10, x pattern, m at level 100, k at level 200).

(** A route: the handler runs inside [try], and [catch] forwards the error
    with [next(error)] to the application's error handler. *)
Definition route (handler : Async Response) (w : World) : Response * World :=
  match handler w with
  | (Ok r, w') => (r, w')
  | (Throw e, w') => (globalErrorHandler e, w')
  end.

(** ** The Mongoose model (src/models/User.js) *)

(** A document in the hands of a handler: the fields, whether it is yet to
    be inserted, and whether [password] counts as modified. *)
Record Document : Type := mkDocument {
  _id : nat;
  isNew : bool;
  fields : UserDoc;
  isModifiedPassword : bool
}.

(** [new User({fullName, email, password})]: the schema trims [fullName]
    and lowercases [email]; every path given is a modified one. *)
Definition newUser (id : nat) (name mail pass : string) : Document :=
  mkDocument id true
    (mkUser (Js.trim name) (Js.toLowerCase mail) pass None None) true.

(** [user.password = v]: Mongoose marks the path modified when the value
    differs from the one the document holds. *)
Definition setPassword (v : string) (d : Document) : Document :=
  let u := fields d in
  if String.eqb v (password u) then d
  else mkDocument (_id d) (isNew d)
         (mkUser (fullName u) (email u) v (resetPasswordToken u) (resetPasswordExpire u))
         true.

(** [user.resetPasswordToken = t; user.resetPasswordExpire = e] *)
Definition setReset (t : option string) (e : option Z) (d : Document) : Document :=
  let u := fields d in
  mkDocument (_id d) (isNew d)
    (mkUser (fullName u) (email u) (password u) t e)
    (isModifiedPassword d).

(** The schema's validators, path by path: [required] on the three paths
    and [minlength: 8] on [password]. *)
Definition validatePaths (u : UserDoc) : list string :=
  (if String.eqb (fullName u) "" then ["fullName: Name is required"] else [])
  ++ (if String.eqb (email u) "" then ["email: Path `email` is required."] else [])
  ++ (if String.eqb (password u) "" then ["password: Path `password` is required."]
      else if Js.length (password u) <? 8
      then ["password: Path `password` (`" ++ password u
            ++ "`) is shorter than the minimum allowed length (8)."]
      else []).

(** The validation [save] runs first, before the pre-save hook. *)
Definition validate (d : Document) : option JsError :=
  match validatePaths (fields d) with
  | [] => None
  | msgs => Some (ValidationError msgs)
  end.

(** The unique index on [email]. *)
Definition emailTaken (mail : string) (users : list UserDoc) : bool :=
  existsb (fun u => String.eqb (email u) mail) users.

Section Model.
Context {B : Bcrypt}.

(** [userSchema.pre('save')] (User.js, 29-41): hash the password when it
    was modified, with a salt of [genSalt(10)]. *)
Definition preSave (env : Env) (d : Document) : Document :=
  if negb (isModifiedPassword d) then d
  else
    let u := fields d in
    mkDocument (_id d) (isNew d)
      (mkUser (fullName u) (email u) (bcrypt_hash (password u) (hookSalt env))
              (resetPasswordToken u) (resetPasswordExpire u))
      (isModifiedPassword d).

(** [await user.save()]: validation, the pre-save hook, then one write:
    an insert, which the unique index can refuse, or an update of the
    whole document in its place. *)
Definition save (env : Env) (d : Document) : Async Document :=
  fun w =>
    match validate d with
    | Some err => (Throw err, w)
    | None =>
        let d' := preSave env d in
        if isNew d' then
          if emailTaken (email (fields d')) (db w) then (Throw E11000, w)
          else (Ok (mkDocument (_id d') false (fields d') false),
                mkWorld (db w ++ [fields d']) (outbox w))
        else (Ok (mkDocument (_id d') false (fields d') false),
              mkWorld (<[_id d' := fields d']> (db w)) (outbox w))
    end.

(** [userSchema.methods.comparePassword] (User.js, 48-50); bcryptjs
    rejects an argument that is not a string. *)
Definition comparePassword (d : Document) (candidatePassword : Js.Val) : Async bool :=
  match candidatePassword with
  | Js.JStr s => ret (bcrypt_compare s (password (fields d)))
  | v => throw (Error ("Illegal arguments: " ++ Js.typeof v ++ ", string"))
  end.

End Model.

(** [await User.findOne(filter)]: the first document that satisfies the
    filter, as a document that is not new and has nothing modified. *)
Definition findOne (filter : UserDoc -> bool) : Async (option Document) :=
  fun w =>
    match list_find (fun u => filter u = true) (db w) with
    | Some (i, u) => (Ok (Some (mkDocument i false u false)), w)
    | None => (Ok None, w)
    end.

(** The [_id] of a document under construction: its position to be. *)
Definition freshId : Async nat := fun w => (Ok (length (db w)), w).

(** The filter [{ email: key }].  Every handler passes a lowercased key,
    which the schema's [lowercase] setter leaves as it is. *)
Definition byEmail (key : string) (u : UserDoc) : bool :=
  String.eqb (email u) key.

(** The filter [{ resetPasswordToken: token, resetPasswordExpire: { $gt: t } }];
    a field that is absent matches neither condition. *)
Definition byValidResetToken (token : string) (t : Z) (u : UserDoc) : bool :=
  match resetPasswordToken u, resetPasswordExpire u with
  | Some tok, Some expire => (String.eqb tok token && (t <? expire))%bool
  | _, _ => false
  end.

(** [await sendResetEmail(email, token)] (part_001, 460-526): throws when
    the configuration is incomplete or when the transport fails. *)
Definition sendResetEmail (env : Env) (to token : string) : Async unit :=
  fun w =>
    if negb (smtpConfigured env)
    then (Throw (Error "SMTP configuration and FRONTEND_URL must be set in environment variables"), w)
    else if sendMailOk env
    then (Ok tt, mkWorld (db w) (outbox w ++ [(to, token)]))
    else (Throw (Error "Failed to send password reset email"), w).

(** ** Requests *)

(** [req.params.token] and the fields of [req.body] that the handlers
    destructure.  Express matches [:token] against a path segment that is
    not empty. *)
Record Request : Type := mkRequest {
  params_token : string;
  body_fullName : Js.Val;
  body_email : Js.Val;
  body_password : Js.Val
}.

(** The receiver of [name.trim()], [name] being a body field: a string, or
    else the call throws a [TypeError] (with V8's message). *)
Definition theString (name : string) (v : Js.Val) : Async string :=
  match v with
  | Js.JStr s => ret s
  | Js.JUndefined =>
      throw (TypeError "Cannot read properties of undefined (reading 'trim')")
  | Js.JNull =>
      throw (TypeError "Cannot read properties of null (reading 'trim')")
  | _ => throw (TypeError (name ++ ".trim is not a function"))
  end.

Definition hour : Z := 3600000.

(** The routes the two revisions register between them. *)
Inductive Endpoint : Type :=
| Register
| Login
| ForgotPassword
| ValidateResetToken
| ResetPassword.

(** ** The first revision of the router (part_001, 1-149) *)

Module AuthV1.
Section Handlers.
Context {B : Bcrypt}.

(** The condition of the [if] at lines 106-114, true when the password is
    refused. *)
Definition resetPasswordRefuses (password : Js.Val) : bool :=
  match password with
  | Js.JStr p =>
      (negb (Js.truthy password)
       || (Js.length p <? 8)
       || negb (Js.test Js.isUpper p)
       || negb (Js.test Js.isLower p)
       || negb (Js.test Js.isDigit p)
       || negb (Js.test (fun c => negb (Js.isAlnum c)) p))%bool
  | _ => true
  end.

(** POST /forgot-password (lines 26-59) *)
Definition forgotPassword (env : Env) (req : Request) : Async Response :=
  match body_email req with
  | Js.JStr mail =>
      if negb (Js.truthy (body_email req))
      then ret (json 400 false "Valid email is required")
      else
        await found <- findOne (byEmail (Js.toLowerCase mail));
        match found with
        | None => ret (json 404 false "No account found with that email")
        | Some user =>
            let resetToken := randomBytesHex env in
            let resetExpire := now env + hour in
            let user := setReset (Some resetToken) (Some resetExpire) user in
            await user <- save env user;
            await _ <- sendResetEmail env (email (fields user)) resetToken;
            ret (json 200 true "Password reset email sent if account exists")
        end
  | _ => ret (json 400 false "Valid email is required")
  end.

(** GET /reset-password/:token (lines 67-88) *)
Definition validateResetToken (env : Env) (req : Request) : Async Response :=
  let token := params_token req in
  if String.eqb token ""
  then ret (json 400 false "Invalid token")
  else
    await found <- findOne (byValidResetToken token (now env));
    match found with
    | None => ret (json 400 false "Invalid or expired token")
    | Some _ => ret (json 200 true "Token is valid")
    end.

(** POST /reset-password/:token (lines 97-147): the handler hashes the
    password and assigns the digest, and [save] runs the pre-save hook
    on it. *)
Definition resetPassword (env : Env) (req : Request) : Async Response :=
  let token := params_token req in
  if String.eqb token ""
  then ret (json 400 false "Invalid token")
  else
    match body_password req with
    | Js.JStr password =>
        if resetPasswordRefuses (body_password req)
        then ret (json 400 false
          "Password must be at least 8 characters long, include uppercase, lowercase, number, and special character")
        else
          await found <- findOne (byValidResetToken token (now env));
          match found with
          | None => ret (json 400 false "Invalid or expired token")
          | Some user =>
              let hashedPassword := bcrypt_hash password (routeSalt env) in
              let user := setPassword hashedPassword user in
              let user := setReset None None user in
              await _ <- save env user;
              ret (json 200 true "Password has been reset successfully")
          end
    | _ => ret (json 400 false
          "Password must be at least 8 characters long, include uppercase, lowercase, number, and special character")
    end.

(** [router.post(...)], [router.get(...)]: this revision has three routes. *)
Definition router (ep : Endpoint) : option (Env -> Request -> Async Response) :=
  match ep with
  | ForgotPassword => Some forgotPassword
  | ValidateResetToken => Some validateResetToken
  | ResetPassword => Some resetPassword
  | Register | Login => None
  end.

End Handlers.
End AuthV1.

(** ** The second revision of the router (part_001, 150-366) *)

Module AuthV2.
Section Handlers.
Context {B : Bcrypt}.

Definition policyMessage : string :=
  "Password must be at least 8 characters long, include uppercase, lowercase, number, and special character".

(** The condition of the [if] at lines 171-179 of register, true when the
    password is refused. *)
Definition registerRefuses (password : Js.Val) : bool :=
  match password with
  | Js.JStr p =>
      (negb (Js.truthy password)
       || (Js.length p <? 8)
       || negb (Js.test Js.isUpper p)
       || negb (Js.test Js.isLower p)
       || negb (Js.test Js.isDigit p)
       || negb (Js.test (fun c => negb (Js.isAlnum c)) p))%bool
  | _ => true
  end.

(** The condition of the [if] at lines 329-337 of reset-password. *)
Definition resetPasswordRefuses (password : Js.Val) : bool :=
  match password with
  | Js.JStr p =>
      (negb (Js.truthy password)
       || (Js.length p <? 8)
       || negb (Js.test Js.isUpper p)
       || negb (Js.test Js.isLower p)
       || negb (Js.test Js.isDigit p)
       || negb (Js.test (fun c => negb (Js.isAlnum c)) p))%bool
  | _ => true
  end.

(** [!fullName || fullName.trim().length < 2] (line 164) *)
Definition nameRefused (fullName : Js.Val) : Async bool :=
  if negb (Js.truthy fullName) then ret true
  else
    await name <- theString "fullName" fullName;
    ret (Js.length (Js.trim name) <? 2).

(** POST /register (lines 160-216) *)
Definition register (env : Env) (req : Request) : Async Response :=
  await noName <- nameRefused (body_fullName req);
  if noName : bool then ret (json 400 false "Name is required")
  else if registerRefuses (body_password req)
  then ret (json 400 false policyMessage)
  else
    match body_password req with
    | Js.JStr password =>
        await name <- theString "fullName" (body_fullName req);
        await mail <- theString "email" (body_email req);
        let emailLower := Js.toLowerCase (Js.trim mail) in
        await existingUser <- findOne (byEmail emailLower);
        match existingUser with
        | Some _ => ret (json 400 false "User with this email already exists")
        | None =>
            await id <- freshId;
            let newUser := newUser id (Js.trim name) emailLower password in
            await newUser <- save env newUser;
            ret (mkResponse 201 true "User registered successfully"
                   (Some (_id newUser, email (fields newUser))))
        end
    | _ => ret (json 400 false policyMessage)
    end.

(** POST /login (lines 222-262) *)
Definition login (env : Env) (req : Request) : Async Response :=
  if (negb (Js.truthy (body_email req)) || negb (Js.truthy (body_password req)))%bool
  then ret (json 400 false "Email and password are required")
  else
    await mail <- theString "email" (body_email req);
    let emailTrimmed := Js.toLowerCase (Js.trim mail) in
    await found <- findOne (byEmail emailTrimmed);
    match found with
    | None => ret (json 400 false "Invalid email or password")
    | Some user =>
        await isMatch <- comparePassword user (body_password req);
        if negb isMatch
        then ret (json 400 false "Invalid email or password")
        else ret (mkResponse 200 true "Login successful"
                    (Some (_id user, email (fields user))))
    end.

(** POST /forgot-password (lines 269-295) *)
Definition forgotPassword (env : Env) (req : Request) : Async Response :=
  match body_email req with
  | Js.JStr mail =>
      if negb (Js.truthy (body_email req))
      then ret (json 400 false "Valid email is required")
      else
        await found <- findOne (byEmail (Js.toLowerCase mail));
        match found with
        | None => ret (json 200 true
            "If an account with that email exists, a reset link will be sent")
        | Some user =>
            let resetToken := randomBytesHex env in
            let resetExpire := now env + hour in
            let user := setReset (Some resetToken) (Some resetExpire) user in
            await user <- save env user;
            await _ <- sendResetEmail env (email (fields user)) resetToken;
            ret (json 200 true "Password reset email sent if account exists")
        end
  | _ => ret (json 400 false "Valid email is required")
  end.

(** GET /reset-password/:token (lines 301-318) *)
Definition validateResetToken (env : Env) (req : Request) : Async Response :=
  let token := params_token req in
  await found <- findOne (byValidResetToken token (now env));
  match found with
  | None => ret (json 400 false "Invalid or expired token")
  | Some _ => ret (json 200 true "Token is valid")
  end.

(** POST /reset-password/:token (lines 324-364): the plaintext is
    assigned, and the pre-save hook hashes it. *)
Definition resetPassword (env : Env) (req : Request) : Async Response :=
  let token := params_token req in
  match body_password req with
  | Js.JStr password =>
      if resetPasswordRefuses (body_password req)
      then ret (json 400 false policyMessage)
      else
        await found <- findOne (byValidResetToken token (now env));
        match found with
        | None => ret (json 400 false "Invalid or expired token")
        | Some user =>
            let user := setPassword password user in
            let user := setReset None None user in
            await _ <- save env user;
            ret (json 200 true "Password has been reset successfully")
        end
  | _ => ret (json 400 false policyMessage)
  end.

Definition router (ep : Endpoint) : option (Env -> Request -> Async Response) :=
  match ep with
  | Register => Some register
  | Login => Some login
  | ForgotPassword => Some forgotPassword
  | ValidateResetToken => Some validateResetToken
  | ResetPassword => Some resetPassword
  end.

End Handlers.
End AuthV2.

(** ** The requests of the end-to-end scenario *)

Definition post (fullName email password : Js.Val) : Request :=
  mkRequest "" fullName email password.

Definition withToken (token : string) (password : Js.Val) : Request :=
  mkRequest token Js.JUndefined Js.JUndefined password.

(** ** The password policy, in the words of the specification *)

Module Policy.

Definition chars (s : string) : list ascii := list_ascii_of_string s.

Definition contains (P : ascii -> Prop) (s : string) : Prop :=
  exists c, In c (chars s) /\ P c.

Definition uppercase (c : ascii) : Prop := (65 <= nat_of_ascii c <= 90)%nat.
Definition lowercase (c : ascii) : Prop := (97 <= nat_of_ascii c <= 122)%nat.
Definition digit (c : ascii) : Prop := (48 <= nat_of_ascii c <= 57)%nat.
Definition special (c : ascii) : Prop := ~ uppercase c /\ ~ lowercase c /\ ~ digit c.

(** Length at least 8, an uppercase letter, a lowercase letter, a digit
    and a character outside [A-Za-z0-9]. *)
Definition satisfied (p : string) : Prop :=
  (8 <= String.length p)%nat
  /\ contains uppercase p /\ contains lowercase p
  /\ contains digit p /\ contains special p.

End Policy.

(** ** The application as a transition system *)

Inductive Revision : Type := V1 | V2.

Definition routerOf {B : Bcrypt} (rev : Revision) (ep : Endpoint)
  : option (Env -> Request -> Async Response) :=
  match rev with
  | V1 => AuthV1.router ep
  | V2 => AuthV2.router ep
  end.

(** The token drawn for a request is held by no document: the idealisation
    of [crypto.randomBytes(20)]. *)
Definition freshToken (env : Env) (users : list UserDoc) : Prop :=
  Forall (fun u => resetPasswordToken u <> Some (randomBytesHex env)) users.

(** The states the application reaches from the empty collection, by
    requests to the routes of either revision. *)
Inductive reachable {B : Bcrypt} : World -> Prop :=
| reachable_init : reachable (mkWorld [] [])
| reachable_step (w : World) (rev : Revision) (ep : Endpoint)
    (h : Env -> Request -> Async Response) (env : Env) (req : Request) :
    reachable w ->
    routerOf rev ep = Some h ->
    freshToken env (db w) ->
    reachable (snd (route (h env req) w)).

(** ** Invariants of the collection *)

(** The document passes the schema's validators. *)
Definition validDoc (u : UserDoc) : Prop :=
  fullName u <> "" /\ email u <> "" /\ 8 <= Js.length (password u).

(** [resetPasswordToken] and [resetPasswordExpire] are both present or both
    absent. *)
Definition paired (u : UserDoc) : Prop :=
  resetPasswordToken u = None <-> resetPasswordExpire u = None.

Definition uniqueEmails (users : list UserDoc) : Prop :=
  forall i j u v,
    users !! i = Some u -> users !! j = Some v -> email u = email v -> i = j.

Definition uniqueTokens (users : list UserDoc) : Prop :=
  forall i j u v t,
    users !! i = Some u -> users !! j = Some v ->
    resetPasswordToken u = Some t -> resetPasswordToken v = Some t -> i = j.

Record storeOk (users : list UserDoc) : Prop := mkStoreOk {
  ok_valid : Forall validDoc users;
  ok_paired : Forall paired users;
  ok_emails : uniqueEmails users;
  ok_tokens : uniqueTokens users
}.

(** Some stored document holds [token] with an expiry after [t]. *)
Definition holdsValidToken (users : list UserDoc) (token : string) (t : Z) : Prop :=
  exists u expire,
    In u users /\ resetPasswordToken u = Some token
    /\ resetPasswordExpire u = Some expire /\ t < expire.



(** ** The worlds of the end-to-end scenario *)

Module Scenario.

Definition env0 : Env :=
  mkEnv 1000 "3f9c0a1b2d4e5f60718293a4b5c6d7e8f9012345"
        "$2a$12$abcdefghijklmnopqrstuu" "$2a$10$abcdefghijklmnopqrstuu" true true.

(** A later request, half an hour on. *)
Definition env1 : Env :=
  mkEnv 1801000 "77aa0a1b2d4e5f60718293a4b5c6d7e8f90123ff"
        "$2a$12$ABCDEFGHIJKLMNOPQRSTUU" "$2a$10$ABCDEFGHIJKLMNOPQRSTUU" true true.

Definition empty : World := mkWorld [] [].

(** Jane Doe, registered with the password ["Str0ng!Pass"]. *)
Definition jane : UserDoc :=
  mkUser "Jane Doe" "jane@test.com"
         (bcrypt_hash (Bcrypt := symbolic_bcrypt) "Str0ng!Pass" (hookSalt env0))
         None None.

Definition registered : World := mkWorld [jane] [].

(** Jane after a forgot-password request served under [env0]. *)
Definition janeAsked : UserDoc :=
  mkUser "Jane Doe" "jane@test.com" (password jane)
         (Some (randomBytesHex env0)) (Some (now env0 + hour)).

Definition asked : World :=
  mkWorld [janeAsked] [("jane@test.com", randomBytesHex env0)].

End Scenario.

(** ** What one request can do to the collection

    Nothing; the write of forgot-password, which sets the token and its
    expiry on one document; the write of reset-password, which replaces the
    password and clears both reset fields of one document that held the
    presented token; or the insert of register. *)
Inductive dbStep {B : Bcrypt} (env : Env) (token : string) (users : list UserDoc)
  : list UserDoc -> Prop :=
| step_none : dbStep env token users users
| step_issue (i : nat) (u : UserDoc) :
    users !! i = Some u ->
    validDoc u ->
    dbStep env token users
      (<[i := mkUser (fullName u) (email u) (password u)
                     (Some (randomBytesHex env)) (Some (now env + hour))]> users)
| step_reset (i : nat) (u : UserDoc) (pw : string) :
    users !! i = Some u ->
    fullName u <> "" -> email u <> "" ->
    byValidResetToken token (now env) u = true ->
    (pw = password u /\ 8 <= Js.length pw) \/ (exists s salt, pw = bcrypt_hash s salt) ->
    dbStep env token users
      (<[i := mkUser (fullName u) (email u) pw None None]> users)
| step_insert (u : UserDoc) :
    fullName u <> "" -> email u <> "" ->
    (exists s salt, password u = bcrypt_hash s salt) ->
    resetPasswordToken u = None -> resetPasswordExpire u = None ->
    emailTaken (email u) users = false ->
    dbStep env token users (users ++ [u]).

(** ** The password a reset leaves in the collection *)

(** In the second revision the handler assigns the plaintext and the
    pre-save hook stores its digest (an assignment of the value the document
    already holds modifies nothing). *)
Definition storedV2 {B : Bcrypt} (env : Env) (p : string) (u : UserDoc) : string :=
  if String.eqb p (password u) then password u
  else bcrypt_hash p (hookSalt env).

(** In the first revision the handler assigns its own digest of the
    plaintext, and the pre-save hook stores the digest of that. *)
Definition storedV1 {B : Bcrypt} (env : Env) (p : string) (u : UserDoc) : string :=
  if String.eqb (bcrypt_hash p (routeSalt env)) (password u) then password u
  else bcrypt_hash (bcrypt_hash p (routeSalt env)) (hookSalt env).

(** The document forgot-password writes back. *)
Definition issued (env : Env) (u : UserDoc) : UserDoc :=
  mkUser (fullName u) (email u) (password u)
         (Some (randomBytesHex env)) (Some (now env + 3600000)).

(** ** Notions for the further properties of the routes *)

(** A route whose [catch] forwards to an error middleware of choice:
    [route] is [routeWith globalErrorHandler]. *)
Definition routeWith (onError : JsError -> Response) (handler : Async Response)
    (w : World) : Response * World :=
  match handler w with
  | (Ok r, w') => (r, w')
  | (Throw e, w') => (onError e, w')
  end.

(** What logs a document in. *)
Definition credentials (u : UserDoc) : string * string := (email u, password u).

(** The address is its own normal form, and not empty. *)
Definition normalEmail (u : UserDoc) : Prop :=
  Js.toLowerCase (Js.trim (email u)) = email u /\ email u <> "".

(** The name is trimmed and has at least two characters. *)
Definition properName (u : UserDoc) : Prop :=
  Js.trim (fullName u) = fullName u /\ 2 <= Js.length (fullName u).

(** The stored password is an output of [bcrypt.hash]. *)
Definition isDigest {B : Bcrypt} (s : string) : Prop :=
  exists p salt, s = bcrypt_hash p salt.

(** The document register inserts. *)
Definition registered {B : Bcrypt} (env : Env) (name mail pass : string) : UserDoc :=
  mkUser (Js.trim (Js.trim name)) (Js.toLowerCase (Js.toLowerCase (Js.trim mail)))
         (bcrypt_hash pass (hookSalt env)) None None.

(** The statuses the handlers send themselves, and the flag that goes with
    each. *)
Definition wellFormedResponse (r : Response) : Prop :=
  (res_status r = 200 \/ res_status r = 201 \/ res_status r = 400
   \/ res_status r = 404 \/ res_status r = 500)
  /\ (res_success r = true <-> res_status r = 200 \/ res_status r = 201).

(** An error as the handlers and their collaborators raise them: no
    [status], no [statusCode], and no [code] but the duplicate key's. *)
Definition plainError (e : JsError) : Prop :=
  err_status e = None /\ err_statusCode e = None
  /\ (err_code e = None \/ err_code e = Some 11000).

(** What a handler hands back: a response of its own, never 500, or an
    error for [next]. *)
Definition handlerOutcome (o : Result Response * World) : Prop :=
  match fst o with
  | Ok r => wellFormedResponse r /\ res_status r <> 500
  | Throw e => plainError e
  end.

(** ** More of the scenario *)

Module Outage.

(** The request of [Scenario.env0], on a day the SMTP transport is down. *)
Definition env : Env :=
  mkEnv (now Scenario.env0) (randomBytesHex Scenario.env0)
        (routeSalt Scenario.env0) (hookSalt Scenario.env0) true false.

(** Jane has her token, and no mail. *)
Definition asked : World := mkWorld [Scenario.janeAsked] [].

End Outage.

(** A document without its password. *)
Definition besidesPassword (u : UserDoc)
  : string * string * option string * option Z :=
  (fullName u, email u, resetPasswordToken u, resetPasswordExpire u).

(** ** Elementary facts about strings and the character classes *)

Example toLowerCase_ex : Js.toLowerCase "Jane@Test.com" = "jane@test.com".
Proof. reflexivity. Qed.

Example trim_ex : Js.trim "  a b  " = "a b".
Proof. reflexivity. Qed.

Lemma inRange_spec lo hi c :
  Js.inRange lo hi c = true <->
  (nat_of_ascii lo <= nat_of_ascii c <= nat_of_ascii hi)%nat.
Proof.
  unfold Js.inRange, Js.charCode.
  rewrite andb_true_iff, !Nat.leb_le. tauto.
Qed.

Lemma isUpper_spec c : Js.isUpper c = true <-> Policy.uppercase c.
Proof. apply inRange_spec. Qed.

Lemma isLower_spec c : Js.isLower c = true <-> Policy.lowercase c.
Proof. apply inRange_spec. Qed.

Lemma isDigit_spec c : Js.isDigit c = true <-> Policy.digit c.
Proof. apply inRange_spec. Qed.

Lemma notAlnum_spec c : negb (Js.isAlnum c) = true <-> Policy.special c.
Proof.
  unfold Js.isAlnum, Policy.special.
  rewrite negb_true_iff, !orb_false_iff.
  rewrite <- isUpper_spec, <- isLower_spec, <- isDigit_spec.
  rewrite !not_true_iff_false. tauto.
Qed.

Lemma test_spec (cls : ascii -> bool) (P : ascii -> Prop) s :
  (forall c, cls c = true <-> P c) ->
  Js.test cls s = true <-> Policy.contains P s.
Proof.
  intros Hcls. unfold Policy.contains, Policy.chars.
  induction s as [|a s IH]; simpl.
  - split; [discriminate | intros (c & [] & _)].
  - rewrite orb_true_iff, IH. split.
    + intros [Ha | (c & Hin & Hc)].
      * exists a. split; [now left | now apply Hcls].
      * exists c. split; [now right | assumption].
    + intros (c & [-> | Hin] & Hc).
      * left. now apply Hcls.
      * right. now exists c.
Qed.

Lemma truthy_JStr s : Js.truthy (Js.JStr s) = true <-> s <> "".
Proof.
  simpl. rewrite negb_true_iff. apply String.eqb_neq.
Qed.

Lemma lowerChar_idem c : Js.lowerChar (Js.lowerChar c) = Js.lowerChar c.
Proof. destruct c as [[] [] [] [] [] [] [] []]; reflexivity. Qed.

Lemma toLowerCase_idem s : Js.toLowerCase (Js.toLowerCase s) = Js.toLowerCase s.
Proof.
  induction s as [|c s IH]; simpl; [reflexivity|].
  now rewrite lowerChar_idem, IH.
Qed.

(** ** The store operations *)

Lemma findOne_found (filter : UserDoc -> bool) w i u :
  list_find (fun u => filter u = true) (db w) = Some (i, u) ->
  findOne filter w = (Ok (Some (mkDocument i false u false)), w).
Proof. intros H. unfold findOne. now rewrite H. Qed.

Lemma findOne_none (filter : UserDoc -> bool) w :
  list_find (fun u => filter u = true) (db w) = None ->
  findOne filter w = (Ok None, w).
Proof. intros H. unfold findOne. now rewrite H. Qed.

Lemma byEmail_true key u : byEmail key u = true <-> email u = key.
Proof. apply String.eqb_eq. Qed.

Lemma byValidResetToken_true token t u :
  byValidResetToken token t u = true <->
  exists expire, resetPasswordToken u = Some token
                 /\ resetPasswordExpire u = Some expire /\ t < expire.
Proof.
  unfold byValidResetToken.
  destruct (resetPasswordToken u) as [tok|], (resetPasswordExpire u) as [e|];
    try (split; [discriminate | intros (e' & ? & ? & ?); congruence]).
  rewrite andb_true_iff, String.eqb_eq, Z.ltb_lt. split.
  - intros [-> ?]. now exists e.
  - intros (e' & [= ->] & [= ->] & ?). now split.
Qed.

(** A lookup by token finds a document exactly when one holds the token
    with an expiry in the future. *)
Lemma find_token_iff users token t :
  is_Some (list_find (fun u => byValidResetToken token t u = true) users)
  <-> holdsValidToken users token t.
Proof.
  unfold holdsValidToken. split.
  - intros [[i u] H]. apply list_find_Some in H as (Hi & Hu & _).
    apply byValidResetToken_true in Hu as (e & ? & ? & ?).
    exists u, e. split; [|tauto].
    apply list_elem_of_In, list_elem_of_lookup. eauto.
  - intros (u & e & Hin & Htok & Hexp & Hlt).
    destruct (list_find _ users) as [p|] eqn:Hfind; [eauto|].
    exfalso. rewrite list_find_None, Forall_forall in Hfind.
    apply (Hfind u); [now apply list_elem_of_In|].
    apply byValidResetToken_true. eauto.
Qed.

Lemma emailTaken_true mail users :
  emailTaken mail users = true <-> exists u, In u users /\ email u = mail.
Proof.
  unfold emailTaken. rewrite existsb_exists.
  split; intros (u & ? & ?); exists u; (split; [assumption|]);
    now apply String.eqb_eq.
Qed.

Lemma long_nonempty s : 8 <= Js.length s -> s <> "".
Proof. intros H ->. unfold Js.length in H. simpl in H. lia. Qed.

Lemma validatePaths_nil u : validatePaths u = [] <-> validDoc u.
Proof.
  unfold validatePaths, validDoc.
  destruct (String.eqb_spec (fullName u) ""); simpl;
    [split; [discriminate | tauto]|].
  destruct (String.eqb_spec (email u) ""); simpl;
    [split; [discriminate | tauto]|].
  destruct (String.eqb_spec (password u) "") as [Hp|Hp]; simpl.
  { split; [discriminate|]. intros (_ & _ & Hlen).
    now apply long_nonempty in Hlen. }
  destruct (Z.ltb_spec (Js.length (password u)) 8); simpl.
  - split; [discriminate|]. intros (_ & _ & Hlen). lia.
  - tauto.
Qed.

Lemma validate_ok d : validDoc (fields d) -> validate d = None.
Proof.
  intros H. apply validatePaths_nil in H. unfold validate. now rewrite H.
Qed.

Lemma validate_error d e :
  validate d = Some e -> exists msgs, e = ValidationError msgs.
Proof.
  unfold validate. destruct (validatePaths (fields d)); intros [= <-]; eauto.
Qed.

(** ** Duplicate e-mail addresses *)

Lemma errorHandler_11000 err :
  err_code err = Some 11000 ->
  errorHandler err = json 400 false "Email already exists".
Proof. intros H. unfold errorHandler. now rewrite H. Qed.

Lemma globalErrorHandler_11000 err :
  err_code err = Some 11000 ->
  globalErrorHandler err = json 400 false "Email already exists".
Proof. intros H. unfold globalErrorHandler. now rewrite H. Qed.

Lemma globalErrorHandler_fails err : res_success (globalErrorHandler err) = false.
Proof.
  unfold globalErrorHandler.
  repeat match goal with
         | |- context [match ?x with _ => _ end] => destruct x
         end; reflexivity.
Qed.

Section Save.
Context {B : Bcrypt}.

(** The unique index: inserting a document whose e-mail address is taken
    is refused with error 11000, and nothing is written. *)
Lemma save_duplicate env d w :
  isNew d = true -> validate d = None ->
  emailTaken (email (fields d)) (db w) = true ->
  save env d w = (Throw E11000, w).
Proof.
  intros Hnew Hval Htaken. unfold save. rewrite Hval.
  assert (Hn : isNew (preSave env d) = true)
    by (unfold preSave; destruct (negb _); assumption).
  assert (He : email (fields (preSave env d)) = email (fields d))
    by (unfold preSave; destruct (negb _); reflexivity).
  now rewrite Hn, He, Htaken.
Qed.

Lemma save_update env d w :
  isNew d = false -> validate d = None ->
  save env d w =
    (Ok (mkDocument (_id d) false (fields (preSave env d)) false),
     mkWorld (<[_id d := fields (preSave env d)]> (db w)) (outbox w)).
Proof.
  intros Hnew Hval. unfold save. rewrite Hval.
  assert (Hn : isNew (preSave env d) = false)
    by (unfold preSave; destruct (negb _); assumption).
  assert (Hi : _id (preSave env d) = _id d)
    by (unfold preSave; destruct (negb _); reflexivity).
  now rewrite Hn, Hi.
Qed.

End Save.

(** ** Registration *)

Ltac run :=
  unfold route, bind, ret, throw, theString in *; simpl in *.

Section Register.
Context {B : Bcrypt}.

(** What a registration that answers 201 did: it found no document with the
    normalised address and appended one document holding it. *)
Lemma register_201_inv env req w :
  res_status (fst (route (AuthV2.register env req) w)) = 201 ->
  exists name mail pass,
    body_fullName req = Js.JStr name /\ body_email req = Js.JStr mail
    /\ body_password req = Js.JStr pass
    /\ snd (route (AuthV2.register env req) w) =
         mkWorld (db w ++ [mkUser (Js.trim (Js.trim name))
                             (Js.toLowerCase (Js.toLowerCase (Js.trim mail)))
                             (bcrypt_hash pass (hookSalt env)) None None])
                 (outbox w).
Proof.
  unfold AuthV2.register, AuthV2.nameRefused. run.
  destruct (body_fullName req) as [| |b|n|name|]; simpl; try discriminate;
    try (destruct b; discriminate);
    try (destruct (n =? 0); discriminate).
  destruct (String.eqb name ""); simpl; [discriminate|].
  destruct (Js.length (Js.trim name) <? 2); simpl; [discriminate|].
  destruct (body_password req) as [| |b|n|pass|]; simpl; try discriminate.
  destruct (_ || _)%bool eqn:Hpol; simpl; [discriminate|].
  destruct (body_email req) as [| |b|n|mail|]; simpl; try discriminate.
  unfold findOne.
  destruct (list_find _ (db w)) as [[i u]|]; simpl; [discriminate|].
  unfold save, newUser. simpl.
  destruct (validate _) as [e|] eqn:Hval; simpl.
  { apply validate_error in Hval as [msg ->]. discriminate. }
  destruct (emailTaken _ _); simpl; [discriminate|].
  intros _. exists name, mail, pass. auto.
Qed.

(** A registration under an address that some document holds in its
    normalised form fails, and writes nothing. *)
Lemma register_taken env req w mail :
  body_email req = Js.JStr mail ->
  (exists u, In u (db w) /\ email u = Js.toLowerCase (Js.trim mail)) ->
  res_success (fst (route (AuthV2.register env req) w)) = false
  /\ snd (route (AuthV2.register env req) w) = w
  /\ (AuthV2.nameRefused (body_fullName req) w = (Ok false, w) ->
      AuthV2.registerRefuses (body_password req) = false ->
      fst (route (AuthV2.register env req) w) =
        json 400 false "User with this email already exists").
Proof.
  intros Hmail (u & Hin & Hu).
  unfold AuthV2.register, AuthV2.nameRefused. run. rewrite Hmail.
  destruct (body_fullName req) as [| |b|n|name|]; simpl;
    try (repeat split; (reflexivity || discriminate));
    try (destruct b; simpl; repeat split; (reflexivity || discriminate));
    try (destruct (n =? 0); simpl; repeat split; (reflexivity || discriminate)).
  destruct (String.eqb name ""); simpl;
    [repeat split; (reflexivity || discriminate)|].
  destruct (Js.length (Js.trim name) <? 2); simpl;
    [repeat split; (reflexivity || discriminate)|].
  destruct (body_password req) as [| |b|n|pass|]; simpl;
    try (repeat split; (reflexivity || discriminate)).
  destruct (_ || _)%bool eqn:Hpol; simpl;
    [repeat split; (reflexivity || discriminate)|].
  unfold findOne.
  destruct (list_find _ (db w)) as [[i v]|] eqn:Hfind; simpl;
    [repeat split; reflexivity|].
  exfalso. rewrite list_find_None, Forall_forall in Hfind.
  apply (Hfind u); [now apply list_elem_of_In|].
  now apply byEmail_true.
Qed.

End Register.

(** C8. Registering a second time under the same normalised address fails:
    the lookup before the insert answers 400, the unique index of the
    collection refuses the insert of a taken address with error 11000
    whichever caller saves the document, and both error handlers map every
    error of code 11000 to 400 "Email already exists". *)
Theorem duplicate_email_rejected {B : Bcrypt} :
  (forall err, err_code err = Some 11000 ->
     errorHandler err = json 400 false "Email already exists"
     /\ globalErrorHandler err = json 400 false "Email already exists")
  /\ (forall env d w,
        isNew d = true -> validate d = None ->
        emailTaken (email (fields d)) (db w) = true ->
        save env d w = (Throw E11000, w)
        /\ forall k : Document -> Async Response,
             route (bind (save env d) k) w =
               (json 400 false "Email already exists", w))
  /\ (forall env1 env2 req1 req2 w mail1 mail2,
        body_email req1 = Js.JStr mail1 ->
        body_email req2 = Js.JStr mail2 ->
        Js.toLowerCase (Js.trim mail1) = Js.toLowerCase (Js.trim mail2) ->
        res_status (fst (route (AuthV2.register env1 req1) w)) = 201 ->
        let w1 := snd (route (AuthV2.register env1 req1) w) in
        res_success (fst (route (AuthV2.register env2 req2) w1)) = false
        /\ snd (route (AuthV2.register env2 req2) w1) = w1
        /\ (AuthV2.nameRefused (body_fullName req2) w1 = (Ok false, w1) ->
            AuthV2.registerRefuses (body_password req2) = false ->
            fst (route (AuthV2.register env2 req2) w1) =
              json 400 false "User with this email already exists")).
Proof.
  split; [|split].
  - intros err H. split.
    + now apply errorHandler_11000.
    + now apply globalErrorHandler_11000.
  - intros env d w Hnew Hval Htaken.
    pose proof (save_duplicate env d w Hnew Hval Htaken) as Hsave.
    split; [assumption|].
    intros k. unfold route, bind. now rewrite Hsave.
  - intros env1 env2 req1 req2 w mail1 mail2 H1 H2 Hnorm H201 w1.
    destruct (register_201_inv env1 req1 w H201)
      as (name & mail & pass & Hn & Hm & Hp & Hw).
    rewrite H1 in Hm. injection Hm as <-.
    apply (register_taken env2 req2 w1 mail2 H2).
    subst w1. rewrite Hw. simpl.
    eexists. split.
    + apply in_or_app. right. left. reflexivity.
    + simpl. now rewrite toLowerCase_idem.
Qed.

Lemma duplicate_email_rejected_witness :
  let again := post (Js.JStr "Jane D.") (Js.JStr " JANE@test.com ") (Js.JStr "An0ther!Pass") in
  route (AuthV2.register (B := symbolic_bcrypt) Scenario.env0
           (post (Js.JStr "Jane Doe") (Js.JStr "Jane@Test.com") (Js.JStr "Str0ng!Pass")))
        Scenario.empty
    = (mkResponse 201 true "User registered successfully" (Some (0%nat, "jane@test.com")),
       Scenario.registered)
  /\ res_success (fst (route (AuthV2.register (B := symbolic_bcrypt) Scenario.env1 again)
                        Scenario.registered)) = false
  /\ snd (route (AuthV2.register (B := symbolic_bcrypt) Scenario.env1 again)
               Scenario.registered) = Scenario.registered.
Proof.
  split; [reflexivity|].
  destruct (duplicate_email_rejected (B := symbolic_bcrypt)) as (_ & _ & Htwice).
  destruct (Htwice Scenario.env0 Scenario.env1
              (post (Js.JStr "Jane Doe") (Js.JStr "Jane@Test.com") (Js.JStr "Str0ng!Pass"))
              (post (Js.JStr "Jane D.") (Js.JStr " JANE@test.com ") (Js.JStr "An0ther!Pass"))
              Scenario.empty "Jane@Test.com" " JANE@test.com "
              eq_refl eq_refl eq_refl eq_refl) as (Hfail & Hsame & _).
  split; [exact Hfail | exact Hsame].
Defined.

(** ** Login *)

(** C6. A login request with both fields present, for an address no
    document holds, is answered 400 "Invalid email or password".  For an
    address a document holds, the answer is the same 400 when the password
    is a string that [bcrypt.compare] does not verify; when the password is
    not a string (login tests only that it is truthy, where register and
    reset-password test its type), [bcrypt.compare] rejects its argument and
    the answer is 500 with the library's message: the two causes of failure
    are told apart.  No case writes anything. *)
Theorem login_failures_distinguishable {B : Bcrypt}
    (env : Env) (req : Request) (mail : string) (w1 w2 : World) :
  Js.truthy (body_email req) = true ->
  Js.truthy (body_password req) = true ->
  body_email req = Js.JStr mail ->
  (forall u, In u (db w1) -> email u <> Js.toLowerCase (Js.trim mail)) ->
  (exists u, In u (db w2) /\ email u = Js.toLowerCase (Js.trim mail)) ->
  route (AuthV2.login env req) w1 =
    (json 400 false "Invalid email or password", w1)
  /\ (forall p, body_password req = Js.JStr p ->
        (forall u, In u (db w2) -> email u = Js.toLowerCase (Js.trim mail) ->
           bcrypt_compare p (password u) = false) ->
        route (AuthV2.login env req) w2 =
          (json 400 false "Invalid email or password", w2))
  /\ (Js.typeof (body_password req) <> "string" ->
        route (AuthV2.login env req) w2 =
          (json 500 false
             ("Illegal arguments: " ++ Js.typeof (body_password req) ++ ", string"),
           w2)).
Proof.
  intros He Hp Hmail Hnone (u & Hin & Hu).
  unfold AuthV2.login. rewrite He, Hp, Hmail. run. unfold findOne.
  split; [|split].
  - destruct (list_find _ (db w1)) as [[i v]|] eqn:Hfind; [|reflexivity].
    exfalso. apply list_find_Some in Hfind as (Hi & Hv & _).
    apply byEmail_true in Hv.
    apply (Hnone v); [|assumption].
    apply list_elem_of_In, list_elem_of_lookup. eauto.
  - intros p Hpass Hcmp.
    destruct (list_find _ (db w2)) as [[i v]|] eqn:Hfind; [|reflexivity].
    apply list_find_Some in Hfind as (Hi & Hv & _).
    apply byEmail_true in Hv.
    assert (Hinv : In v (db w2))
      by (apply list_elem_of_In, list_elem_of_lookup; eauto).
    unfold comparePassword. rewrite Hpass. simpl.
    now rewrite (Hcmp v Hinv Hv).
  - intros Htype.
    destruct (list_find _ (db w2)) as [[i v]|] eqn:Hfind.
    + unfold comparePassword.
      destruct (body_password req) as [| |b|n|p|]; try reflexivity.
      simpl in Htype. contradiction.
    + exfalso. rewrite list_find_None, Forall_forall in Hfind.
      apply (Hfind u); [now apply list_elem_of_In|].
      now apply byEmail_true.
Qed.

Lemma login_failures_distinguishable_witness :
  let req := post Js.JUndefined (Js.JStr "Jane@Test.com") (Js.JNum 1) in
  route (AuthV2.login (B := symbolic_bcrypt) Scenario.env0 req) Scenario.empty =
    (json 400 false "Invalid email or password", Scenario.empty)
  /\ route (AuthV2.login (B := symbolic_bcrypt) Scenario.env0 req) Scenario.registered =
    (json 500 false "Illegal arguments: number, string", Scenario.registered).
Proof.
  destruct (login_failures_distinguishable (B := symbolic_bcrypt) Scenario.env0
              (post Js.JUndefined (Js.JStr "Jane@Test.com") (Js.JNum 1))
              "Jane@Test.com" Scenario.empty Scenario.registered)
    as (Habsent & _ & Hpresent).
  - reflexivity.
  - reflexivity.
  - reflexivity.
  - intros u [].
  - exists Scenario.jane. split; [left|]; reflexivity.
  - split; [exact Habsent|]. apply Hpresent. discriminate.
Defined.

(** ** The password policy *)

Lemma length_ltb_8 p : (Js.length p <? 8) = false <-> (8 <= String.length p)%nat.
Proof. unfold Js.length. rewrite Z.ltb_ge. lia. Qed.

Lemma registerRefuses_spec p :
  AuthV2.registerRefuses (Js.JStr p) = false <-> Policy.satisfied p.
Proof.
  unfold AuthV2.registerRefuses, Policy.satisfied.
  rewrite !orb_false_iff, !negb_false_iff, length_ltb_8.
  rewrite (test_spec _ _ p isUpper_spec), (test_spec _ _ p isLower_spec),
          (test_spec _ _ p isDigit_spec), (test_spec _ _ p notAlnum_spec).
  rewrite truthy_JStr. split; [tauto|].
  intros (Hlen & ?). repeat split; try tauto.
  intros ->. simpl in Hlen. lia.
Qed.

Lemma refuses_same v :
  AuthV2.registerRefuses v = AuthV2.resetPasswordRefuses v
  /\ AuthV2.resetPasswordRefuses v = AuthV1.resetPasswordRefuses v.
Proof. split; reflexivity. Qed.

Section PolicyErrors.
Context {B : Bcrypt}.

Lemma reset_v2_refused env req w :
  AuthV2.resetPasswordRefuses (body_password req) = true ->
  route (AuthV2.resetPassword env req) w =
    (json 400 false AuthV2.policyMessage, w).
Proof.
  intros H. unfold AuthV2.resetPassword.
  destruct (body_password req); try reflexivity.
  now rewrite H.
Qed.

Lemma reset_v1_refused env req w :
  params_token req <> "" ->
  AuthV1.resetPasswordRefuses (body_password req) = true ->
  route (AuthV1.resetPassword env req) w =
    (json 400 false AuthV2.policyMessage, w).
Proof.
  intros Htok H. unfold AuthV1.resetPassword.
  apply String.eqb_neq in Htok. rewrite Htok.
  destruct (body_password req); try reflexivity.
  now rewrite H.
Qed.

Lemma register_refused env req w :
  AuthV2.nameRefused (body_fullName req) w = (Ok false, w) ->
  AuthV2.registerRefuses (body_password req) = true ->
  route (AuthV2.register env req) w =
    (json 400 false AuthV2.policyMessage, w).
Proof.
  intros Hname H. unfold AuthV2.register, route, bind.
  rewrite Hname. now rewrite H.
Qed.

End PolicyErrors.

(** C5 (amended). The three copies of the password check (register, and
    reset-password in both revisions) are one function; it accepts a string
    exactly when the string has at least 8 characters, an uppercase letter,
    a lowercase letter, a digit and a character outside [A-Za-z0-9]; a
    refused password is answered by the one 400 message that lists the four
    requirements, at reset-password always (the route parameter being a
    non-empty segment) and at register whenever the name check, which runs
    first, has let the request through. *)
Theorem password_policy {B : Bcrypt} :
  (forall v, AuthV2.registerRefuses v = AuthV2.resetPasswordRefuses v
             /\ AuthV2.resetPasswordRefuses v = AuthV1.resetPasswordRefuses v)
  /\ (forall p, AuthV2.registerRefuses (Js.JStr p) = false <-> Policy.satisfied p)
  /\ (forall env req w,
        AuthV2.resetPasswordRefuses (body_password req) = true ->
        route (AuthV2.resetPassword env req) w =
          (json 400 false
             "Password must be at least 8 characters long, include uppercase, lowercase, number, and special character",
           w))
  /\ (forall env req w,
        params_token req <> "" ->
        AuthV1.resetPasswordRefuses (body_password req) = true ->
        route (AuthV1.resetPassword env req) w =
          (json 400 false
             "Password must be at least 8 characters long, include uppercase, lowercase, number, and special character",
           w))
  /\ (forall env req w,
        AuthV2.nameRefused (body_fullName req) w = (Ok false, w) ->
        AuthV2.registerRefuses (body_password req) = true ->
        route (AuthV2.register env req) w =
          (json 400 false
             "Password must be at least 8 characters long, include uppercase, lowercase, number, and special character",
           w)).
Proof.
  split; [exact refuses_same|].
  split; [exact registerRefuses_spec|].
  split; [exact reset_v2_refused|].
  split; [exact reset_v1_refused | exact register_refused].
Qed.

(** The policy on the passwords the specification lists. *)
Example policy_examples :
  map (fun p => AuthV2.registerRefuses (Js.JStr p))
      ["short1!"; "alllowercase1!"; "ALLUPPER1!"; "NoDigits!!"; "NoSpecial123"; "Valid123!"]
  = [true; true; true; true; true; false].
Proof. reflexivity. Qed.

Lemma password_policy_witness :
  Policy.satisfied "Valid123!"
  /\ route (AuthV2.resetPassword (B := symbolic_bcrypt) Scenario.env1
             (withToken (randomBytesHex Scenario.env0) (Js.JStr "NoSpecial123")))
           Scenario.asked
     = (json 400 false AuthV2.policyMessage, Scenario.asked)
  /\ route (AuthV2.register (B := symbolic_bcrypt) Scenario.env0
             (post (Js.JStr "Jane Doe") (Js.JStr "Jane@Test.com") (Js.JStr "short1!")))
           Scenario.empty
     = (json 400 false AuthV2.policyMessage, Scenario.empty).
Proof.
  destruct (password_policy (B := symbolic_bcrypt)) as (_ & Hiff & Hreset & _ & Hreg).
  split; [|split].
  - apply Hiff. reflexivity.
  - apply Hreset. reflexivity.
  - apply Hreg; reflexivity.
Defined.

(** At register the name check comes first: a request whose name is refused
    is answered "Name is required", whatever its password. *)
Lemma password_policy_counterexample :
  AuthV2.registerRefuses (Js.JStr "short1!") = true
  /\ route (AuthV2.register (B := symbolic_bcrypt) Scenario.env0
             (post (Js.JStr "J") (Js.JStr "Jane@Test.com") (Js.JStr "short1!")))
           Scenario.empty
     = (json 400 false "Name is required", Scenario.empty)
  /\ json 400 false "Name is required" <> json 400 false AuthV2.policyMessage.
Proof. repeat split. discriminate. Qed.

(** ** The effect of each handler on the collection *)

Lemma validate_inv d : validate d = None -> validDoc (fields d).
Proof.
  unfold validate. intros H. apply validatePaths_nil.
  destruct (validatePaths (fields d)); [reflexivity | discriminate].
Qed.

Section Effects.
Context {B : Bcrypt}.

Lemma forgot_v2_step env req w :
  dbStep env (params_token req) (db w)
         (db (snd (route (AuthV2.forgotPassword env req) w))).
Proof.
  unfold AuthV2.forgotPassword. run.
  destruct (body_email req) as [| |b|n|mail|]; simpl; try apply step_none.
  destruct (String.eqb mail ""); simpl; [apply step_none|].
  unfold findOne.
  destruct (list_find _ (db w)) as [[i u]|] eqn:Hfind; simpl; [|apply step_none].
  apply list_find_Some in Hfind as (Hi & _ & _).
  unfold save, setReset, preSave; simpl.
  destruct (validate _) eqn:Hval; simpl; [apply step_none|].
  apply validate_inv in Hval. change (validDoc u) in Hval.
  unfold sendResetEmail.
  destruct (smtpConfigured env), (sendMailOk env); simpl;
    now apply step_issue.
Qed.

Lemma forgot_v1_step env req w :
  dbStep env (params_token req) (db w)
         (db (snd (route (AuthV1.forgotPassword env req) w))).
Proof.
  unfold AuthV1.forgotPassword. run.
  destruct (body_email req) as [| |b|n|mail|]; simpl; try apply step_none.
  destruct (String.eqb mail ""); simpl; [apply step_none|].
  unfold findOne.
  destruct (list_find _ (db w)) as [[i u]|] eqn:Hfind; simpl; [|apply step_none].
  apply list_find_Some in Hfind as (Hi & _ & _).
  unfold save, setReset, preSave; simpl.
  destruct (validate _) eqn:Hval; simpl; [apply step_none|].
  apply validate_inv in Hval. change (validDoc u) in Hval.
  unfold sendResetEmail.
  destruct (smtpConfigured env), (sendMailOk env); simpl;
    now apply step_issue.
Qed.

(** The read-only routes. *)
Lemma validate_v2_unchanged env req w :
  snd (route (AuthV2.validateResetToken env req) w) = w.
Proof.
  unfold AuthV2.validateResetToken. run. unfold findOne.
  destruct (list_find _ (db w)) as [[i u]|]; reflexivity.
Qed.

Lemma validate_v1_unchanged env req w :
  snd (route (AuthV1.validateResetToken env req) w) = w.
Proof.
  unfold AuthV1.validateResetToken. run.
  destruct (String.eqb _ ""); [reflexivity|]. unfold findOne.
  destruct (list_find _ (db w)) as [[i u]|]; reflexivity.
Qed.

Lemma login_unchanged env req w :
  snd (route (AuthV2.login env req) w) = w.
Proof.
  unfold AuthV2.login. run.
  destruct (_ || _)%bool; [reflexivity|].
  destruct (body_email req); try reflexivity. simpl. unfold findOne.
  destruct (list_find _ (db w)) as [[i u]|]; [|reflexivity].
  unfold comparePassword.
  destruct (body_password req); try reflexivity. simpl.
  destruct (bcrypt_compare _ _); reflexivity.
Qed.

Lemma reset_v2_step env req w :
  dbStep env (params_token req) (db w)
         (db (snd (route (AuthV2.resetPassword env req) w))).
Proof.
  unfold AuthV2.resetPassword. run.
  destruct (body_password req) as [| |b|n|p|]; simpl; try apply step_none.
  destruct (_ || _)%bool; simpl; [apply step_none|].
  unfold findOne.
  destruct (list_find _ (db w)) as [[i u]|] eqn:Hfind; simpl; [|apply step_none].
  apply list_find_Some in Hfind as (Hi & Hu & _).
  unfold save, setReset, setPassword, preSave; simpl.
  destruct (String.eqb_spec p (password u)) as [->|Hne]; simpl.
  - destruct (validate _) eqn:Hval; simpl; [apply step_none|].
    apply validate_inv in Hval as (Hn & He & Hp). simpl in *.
    apply step_reset; auto.
  - destruct (validate _) eqn:Hval; simpl; [apply step_none|].
    apply validate_inv in Hval as (Hn & He & Hp). simpl in *.
    apply step_reset; eauto.
Qed.

Lemma reset_v1_step env req w :
  dbStep env (params_token req) (db w)
         (db (snd (route (AuthV1.resetPassword env req) w))).
Proof.
  unfold AuthV1.resetPassword. run.
  destruct (String.eqb _ ""); [apply step_none|].
  destruct (body_password req) as [| |b|n|p|]; simpl; try apply step_none.
  destruct (_ || _)%bool; simpl; [apply step_none|].
  unfold findOne.
  destruct (list_find _ (db w)) as [[i u]|] eqn:Hfind; simpl; [|apply step_none].
  apply list_find_Some in Hfind as (Hi & Hu & _).
  unfold save, setReset, setPassword, preSave; simpl.
  destruct (String.eqb_spec (bcrypt_hash p (routeSalt env)) (password u))
    as [Heq|Hne]; simpl.
  - destruct (validate _) eqn:Hval; simpl; [apply step_none|].
    apply validate_inv in Hval as (Hn & He & Hp). simpl in *.
    apply step_reset; auto.
  - destruct (validate _) eqn:Hval; simpl; [apply step_none|].
    apply validate_inv in Hval as (Hn & He & Hp). simpl in *.
    apply step_reset; eauto.
Qed.

Lemma register_step env req w :
  dbStep env (params_token req) (db w)
         (db (snd (route (AuthV2.register env req) w))).
Proof.
  unfold AuthV2.register, AuthV2.nameRefused. run.
  destruct (body_fullName req) as [| |b|n|name|]; simpl; try apply step_none;
    try (destruct b; apply step_none);
    try (destruct (n =? 0); apply step_none).
  destruct (String.eqb name ""); simpl; [apply step_none|].
  destruct (Js.length (Js.trim name) <? 2); simpl; [apply step_none|].
  destruct (body_password req) as [| |b|n|pass|]; simpl; try apply step_none.
  destruct (_ || _)%bool; simpl; [apply step_none|].
  destruct (body_email req) as [| |b|n|mail|]; simpl; try apply step_none.
  unfold findOne.
  destruct (list_find _ (db w)) as [[i u]|]; simpl; [apply step_none|].
  unfold save, newUser, preSave. simpl.
  destruct (validate _) as [e|] eqn:Hval; simpl; [apply step_none|].
  apply validate_inv in Hval as (Hn & He & Hp). simpl in *.
  destruct (emailTaken _ _) eqn:Htaken; simpl; [apply step_none|].
  apply step_insert; simpl; eauto.
Qed.

(** Every route of either revision. *)
Lemma handler_step rev ep h env req w :
  routerOf rev ep = Some h ->
  dbStep env (params_token req) (db w) (db (snd (route (h env req) w))).
Proof.
  destruct rev, ep; simpl; intros [= <-];
    try apply register_step;
    try apply forgot_v1_step; try apply forgot_v2_step;
    try apply reset_v1_step; try apply reset_v2_step;
    rewrite ?login_unchanged, ?validate_v1_unchanged, ?validate_v2_unchanged;
    apply step_none.
Qed.

End Effects.

(** ** Invariants preserved by every request *)

Section Invariants.
Context {B : Bcrypt}.

Lemma dbStep_paired env token users users' :
  dbStep env token users users' ->
  Forall paired users -> Forall paired users'.
Proof.
  intros Hstep Hall. destruct Hstep as [| i u Hi Hv | i u pw Hi _ _ _ _ | u _ _ _ Ht He _].
  - assumption.
  - apply Forall_insert; [assumption|]. unfold paired; simpl. split; discriminate.
  - apply Forall_insert; [assumption|]. unfold paired; simpl. tauto.
  - apply Forall_app. split; [assumption|].
    constructor; [|constructor]. unfold paired. rewrite Ht, He. tauto.
Qed.



Lemma dbStep_emails env token users users' :
  dbStep env token users users' ->
  uniqueEmails users -> uniqueEmails users'.
Proof.
  intros Hstep Huniq.
  assert (Hins : forall i v x, users !! i = Some v -> email x = email v ->
            uniqueEmails (<[i := x]> users)).
  { intros i v x Hi Hx a b ya yb Ha Hb Heq.
    apply list_lookup_insert_Some in Ha as [(-> & <- & _) | (Hna & Ha)];
    apply list_lookup_insert_Some in Hb as [(-> & <- & _) | (Hnb & Hb)].
    - reflexivity.
    - rewrite Hx in Heq. exact (Huniq _ _ _ _ Hi Hb Heq).
    - rewrite Hx in Heq. exact (Huniq _ _ _ _ Ha Hi Heq).
    - exact (Huniq _ _ _ _ Ha Hb Heq). }
  destruct Hstep as [| i u Hi Hv | i u pw Hi _ _ _ _ | u _ _ _ _ _ Hfree].
  - assumption.
  - now apply (Hins i u).
  - now apply (Hins i u).
  - assert (Hno : forall k y, users !! k = Some y -> email y <> email u).
    { intros k y Hk Heq.
      assert (Ht : emailTaken (email u) users = true).
      { apply emailTaken_true. exists y. split; [|assumption].
        apply list_elem_of_In, list_elem_of_lookup. eauto. }
      congruence. }
    intros a b ya yb Ha Hb Heq.
    apply lookup_app_Some in Ha as [Ha | (Hla & Ha)];
    apply lookup_app_Some in Hb as [Hb | (Hlb & Hb)].
    + exact (Huniq _ _ _ _ Ha Hb Heq).
    + apply list_elem_of_lookup_2, list_elem_of_singleton in Hb as ->.
      exfalso. exact (Hno _ _ Ha Heq).
    + apply list_elem_of_lookup_2, list_elem_of_singleton in Ha as ->.
      exfalso. exact (Hno _ _ Hb (eq_sym Heq)).
    + apply lookup_lt_Some in Ha, Hb. simpl in Ha, Hb. lia.
Qed.

Lemma dbStep_tokens env token users users' :
  dbStep env token users users' ->
  freshToken env users ->
  uniqueTokens users -> uniqueTokens users'.
Proof.
  intros Hstep Hfresh Huniq.
  unfold freshToken in Hfresh. rewrite Forall_lookup in Hfresh.
  destruct Hstep as [| i u Hi Hv | i u pw Hi _ _ _ _ | u _ _ _ Hnone _ _].
  - assumption.
  - intros a b ya yb t Ha Hb Hta Htb.
    apply list_lookup_insert_Some in Ha as [(-> & <- & _) | (Hna & Ha)];
    apply list_lookup_insert_Some in Hb as [(-> & <- & _) | (Hnb & Hb)];
      simpl in *.
    + reflexivity.
    + exfalso. apply (Hfresh _ _ Hb). congruence.
    + exfalso. apply (Hfresh _ _ Ha). congruence.
    + exact (Huniq _ _ _ _ _ Ha Hb Hta Htb).
  - intros a b ya yb t Ha Hb Hta Htb.
    apply list_lookup_insert_Some in Ha as [(-> & <- & _) | (Hna & Ha)];
    apply list_lookup_insert_Some in Hb as [(-> & <- & _) | (Hnb & Hb)];
      simpl in *; try discriminate.
    exact (Huniq _ _ _ _ _ Ha Hb Hta Htb).
  - intros a b ya yb t Ha Hb Hta Htb.
    apply lookup_app_Some in Ha as [Ha | (Hla & Ha)];
    apply lookup_app_Some in Hb as [Hb | (Hlb & Hb)].
    + exact (Huniq _ _ _ _ _ Ha Hb Hta Htb).
    + apply list_elem_of_lookup_2, list_elem_of_singleton in Hb as ->. congruence.
    + apply list_elem_of_lookup_2, list_elem_of_singleton in Ha as ->. congruence.
    + apply list_elem_of_lookup_2, list_elem_of_singleton in Ha as ->. congruence.
Qed.

Context {L : BcryptLaws B}.

Lemma dbStep_valid env token users users' :
  dbStep env token users users' ->
  Forall validDoc users -> Forall validDoc users'.
Proof.
  intros Hstep Hall.
  destruct Hstep as [| i u Hi Hv | i u pw Hi Hn He _ Hpw | u Hn He Hpw _ _ _].
  - assumption.
  - apply Forall_insert; [assumption|]. exact Hv.
  - apply Forall_insert; [assumption|]. unfold validDoc; simpl.
    repeat split; try assumption.
    destruct Hpw as [[_ ?] | (s & salt & ->)]; [assumption | apply hash_minlength].
  - apply Forall_app. split; [assumption|].
    constructor; [|constructor]. unfold validDoc. repeat split; try assumption.
    destruct Hpw as (s & salt & ->). apply hash_minlength.
Qed.

Lemma dbStep_storeOk env token users users' :
  dbStep env token users users' ->
  freshToken env users ->
  storeOk users -> storeOk users'.
Proof.
  intros Hstep Hfresh [Hv Hp He Ht]. constructor.
  - eapply dbStep_valid; eassumption.
  - eapply dbStep_paired; eassumption.
  - eapply dbStep_emails; eassumption.
  - eapply dbStep_tokens; eassumption.
Qed.

(** Every reachable collection satisfies the four invariants. *)
Lemma reachable_storeOk w : reachable w -> storeOk (db w).
Proof.
  induction 1 as [| w rev ep h env req Hreach IH Hroute Hfresh].
  - constructor; simpl.
    + constructor.
    + constructor.
    + intros i j u v Hi. rewrite lookup_nil in Hi. discriminate.
    + intros i j u v t Hi. rewrite lookup_nil in Hi. discriminate.
  - eapply dbStep_storeOk; [|eassumption|assumption].
    apply (handler_step rev ep h env req w Hroute).
Qed.

End Invariants.



(** ** Reset tokens *)

Lemma accepted_length p :
  AuthV2.resetPasswordRefuses (Js.JStr p) = false -> 8 <= Js.length p.
Proof.
  intros H. apply registerRefuses_spec in H as (Hlen & _).
  unfold Js.length. lia.
Qed.

Section Reset.
Context {B : Bcrypt}.

Lemma reset_v2_found env req w p i u :
  body_password req = Js.JStr p ->
  AuthV2.resetPasswordRefuses (Js.JStr p) = false ->
  list_find (fun u => byValidResetToken (params_token req) (now env) u = true) (db w)
    = Some (i, u) ->
  fullName u <> "" -> email u <> "" ->
  route (AuthV2.resetPassword env req) w =
    (json 200 true "Password has been reset successfully",
     mkWorld (<[i := mkUser (fullName u) (email u) (storedV2 env p u) None None]> (db w))
             (outbox w)).
Proof.
  intros Hp Hpol Hfind Hn He.
  pose proof (accepted_length p Hpol) as Hlen.
  unfold AuthV2.resetPassword, route, bind. rewrite Hp, Hpol.
  rewrite (findOne_found _ _ _ _ Hfind).
  rewrite save_update; [| | apply validate_ok].
  - unfold storedV2, setReset, setPassword, preSave. simpl.
    destruct (String.eqb p (password u)); reflexivity.
  - unfold setReset, setPassword. simpl.
    destruct (String.eqb p (password u)); reflexivity.
  - unfold setReset, setPassword, validDoc. simpl.
    destruct (String.eqb_spec p (password u)) as [Heq|Hne]; simpl;
      repeat split; auto.
    now rewrite <- Heq.
Qed.

Lemma reset_v2_not_found env req w p :
  body_password req = Js.JStr p ->
  AuthV2.resetPasswordRefuses (Js.JStr p) = false ->
  list_find (fun u => byValidResetToken (params_token req) (now env) u = true) (db w)
    = None ->
  route (AuthV2.resetPassword env req) w =
    (json 400 false "Invalid or expired token", w).
Proof.
  intros Hp Hpol Hfind.
  unfold AuthV2.resetPassword, route, bind. rewrite Hp, Hpol.
  now rewrite (findOne_none _ _ Hfind).
Qed.

Lemma reset_v1_not_found env req w p :
  params_token req <> "" ->
  body_password req = Js.JStr p ->
  AuthV1.resetPasswordRefuses (Js.JStr p) = false ->
  list_find (fun u => byValidResetToken (params_token req) (now env) u = true) (db w)
    = None ->
  route (AuthV1.resetPassword env req) w =
    (json 400 false "Invalid or expired token", w).
Proof.
  intros Htok Hp Hpol Hfind. apply String.eqb_neq in Htok.
  unfold AuthV1.resetPassword, route, bind. rewrite Htok, Hp, Hpol.
  now rewrite (findOne_none _ _ Hfind).
Qed.

Lemma validate_v2_found env req w i u :
  list_find (fun u => byValidResetToken (params_token req) (now env) u = true) (db w)
    = Some (i, u) ->
  route (AuthV2.validateResetToken env req) w = (json 200 true "Token is valid", w).
Proof.
  intros Hfind. unfold AuthV2.validateResetToken, route, bind.
  now rewrite (findOne_found _ _ _ _ Hfind).
Qed.

Lemma validate_v2_not_found env req w :
  list_find (fun u => byValidResetToken (params_token req) (now env) u = true) (db w)
    = None ->
  route (AuthV2.validateResetToken env req) w =
    (json 400 false "Invalid or expired token", w).
Proof.
  intros Hfind. unfold AuthV2.validateResetToken, route, bind.
  now rewrite (findOne_none _ _ Hfind).
Qed.

Lemma validate_v1_found env req w i u :
  params_token req <> "" ->
  list_find (fun u => byValidResetToken (params_token req) (now env) u = true) (db w)
    = Some (i, u) ->
  route (AuthV1.validateResetToken env req) w = (json 200 true "Token is valid", w).
Proof.
  intros Htok Hfind. apply String.eqb_neq in Htok.
  unfold AuthV1.validateResetToken, route, bind. rewrite Htok.
  now rewrite (findOne_found _ _ _ _ Hfind).
Qed.

Lemma validate_v1_not_found env req w :
  params_token req <> "" ->
  list_find (fun u => byValidResetToken (params_token req) (now env) u = true) (db w)
    = None ->
  route (AuthV1.validateResetToken env req) w =
    (json 400 false "Invalid or expired token", w).
Proof.
  intros Htok Hfind. apply String.eqb_neq in Htok.
  unfold AuthV1.validateResetToken, route, bind. rewrite Htok.
  now rewrite (findOne_none _ _ Hfind).
Qed.

Context {L : BcryptLaws B}.

Lemma reset_v1_found env req w p i u :
  params_token req <> "" ->
  body_password req = Js.JStr p ->
  AuthV1.resetPasswordRefuses (Js.JStr p) = false ->
  list_find (fun u => byValidResetToken (params_token req) (now env) u = true) (db w)
    = Some (i, u) ->
  fullName u <> "" -> email u <> "" ->
  route (AuthV1.resetPassword env req) w =
    (json 200 true "Password has been reset successfully",
     mkWorld (<[i := mkUser (fullName u) (email u) (storedV1 env p u) None None]> (db w))
             (outbox w)).
Proof.
  intros Htok Hp Hpol Hfind Hn He. apply String.eqb_neq in Htok.
  pose proof (hash_minlength p (routeSalt env)) as Hlen.
  unfold AuthV1.resetPassword, route, bind. rewrite Htok, Hp, Hpol.
  rewrite (findOne_found _ _ _ _ Hfind).
  rewrite save_update; [| | apply validate_ok].
  - unfold storedV1, setReset, setPassword, preSave. simpl.
    destruct (String.eqb _ (password u)); reflexivity.
  - unfold setReset, setPassword. simpl.
    destruct (String.eqb _ (password u)); reflexivity.
  - unfold setReset, setPassword, validDoc. simpl.
    destruct (String.eqb_spec (bcrypt_hash p (routeSalt env)) (password u))
      as [Heq|Hne]; simpl; repeat split; auto.
    now rewrite <- Heq.
Qed.

End Reset.

Section Issue.
Context {B : Bcrypt}.

(** forgot-password writes nothing, or writes the token and the expiry
    [now + 3600000] on the document it found by the lowercased address. *)
Lemma forgot_v2_effect env req w :
  let w' := snd (route (AuthV2.forgotPassword env req) w) in
  db w' = db w
  \/ exists mail i u,
       body_email req = Js.JStr mail
       /\ list_find (fun u => byEmail (Js.toLowerCase mail) u = true) (db w) = Some (i, u)
       /\ db w' = <[i := issued env u]> (db w).
Proof.
  unfold AuthV2.forgotPassword. run.
  destruct (body_email req) as [| |b|n|mail|]; simpl; auto.
  destruct (String.eqb mail ""); simpl; auto.
  unfold findOne.
  destruct (list_find _ (db w)) as [[i u]|] eqn:Hfind; simpl; auto.
  unfold save, setReset, preSave; simpl.
  destruct (validate _) eqn:Hval; simpl; auto.
  right. exists mail, i, u. split; [reflexivity|]. split; [exact Hfind|].
  unfold sendResetEmail.
  destruct (smtpConfigured env), (sendMailOk env); reflexivity.
Qed.

Lemma forgot_v1_effect env req w :
  let w' := snd (route (AuthV1.forgotPassword env req) w) in
  db w' = db w
  \/ exists mail i u,
       body_email req = Js.JStr mail
       /\ list_find (fun u => byEmail (Js.toLowerCase mail) u = true) (db w) = Some (i, u)
       /\ db w' = <[i := issued env u]> (db w).
Proof.
  unfold AuthV1.forgotPassword. run.
  destruct (body_email req) as [| |b|n|mail|]; simpl; auto.
  destruct (String.eqb mail ""); simpl; auto.
  unfold findOne.
  destruct (list_find _ (db w)) as [[i u]|] eqn:Hfind; simpl; auto.
  unfold save, setReset, preSave; simpl.
  destruct (validate _) eqn:Hval; simpl; auto.
  right. exists mail, i, u. split; [reflexivity|]. split; [exact Hfind|].
  unfold sendResetEmail.
  destruct (smtpConfigured env), (sendMailOk env); reflexivity.
Qed.

(** The request that finds a valid document and a working transport. *)
Lemma forgot_v2_found env req w mail i u :
  body_email req = Js.JStr mail -> mail <> "" ->
  list_find (fun u => byEmail (Js.toLowerCase mail) u = true) (db w) = Some (i, u) ->
  validDoc u ->
  smtpConfigured env = true -> sendMailOk env = true ->
  route (AuthV2.forgotPassword env req) w =
    (json 200 true "Password reset email sent if account exists",
     mkWorld (<[i := issued env u]> (db w))
             (outbox w ++ [(email u, randomBytesHex env)])).
Proof.
  intros Hmail Hne Hfind Hv Hcfg Hsend. apply String.eqb_neq in Hne.
  unfold AuthV2.forgotPassword, route, bind. rewrite Hmail. simpl. rewrite Hne. simpl.
  rewrite (findOne_found _ _ _ _ Hfind).
  rewrite save_update; [| reflexivity | apply validate_ok; exact Hv].
  unfold sendResetEmail. rewrite Hcfg, Hsend. reflexivity.
Qed.

(** The write happens whatever becomes of the mail. *)
Lemma forgot_found_db env req w (r : Response * World) mail i u :
  r = route (AuthV1.forgotPassword env req) w
  \/ r = route (AuthV2.forgotPassword env req) w ->
  body_email req = Js.JStr mail -> mail <> "" ->
  list_find (fun u => byEmail (Js.toLowerCase mail) u = true) (db w) = Some (i, u) ->
  validDoc u ->
  db (snd r) = <[i := issued env u]> (db w).
Proof.
  intros Hr Hmail Hne Hfind Hv. apply String.eqb_neq in Hne.
  destruct Hr as [-> | ->].
  - unfold AuthV1.forgotPassword, route, bind. rewrite Hmail. simpl. rewrite Hne. simpl.
    rewrite (findOne_found _ _ _ _ Hfind).
    rewrite save_update; [| reflexivity | apply validate_ok; exact Hv].
    unfold sendResetEmail.
    destruct (smtpConfigured env), (sendMailOk env); reflexivity.
  - unfold AuthV2.forgotPassword, route, bind. rewrite Hmail. simpl. rewrite Hne. simpl.
    rewrite (findOne_found _ _ _ _ Hfind).
    rewrite save_update; [| reflexivity | apply validate_ok; exact Hv].
    unfold sendResetEmail.
    destruct (smtpConfigured env), (sendMailOk env); reflexivity.
Qed.

(** What a write of [issued] means for the token drawn, when no document
    held it: it is valid exactly until an hour after the request. *)
Lemma issued_valid_until env users i u t :
  users !! i = Some u ->
  freshToken env users ->
  holdsValidToken (<[i := issued env u]> users) (randomBytesHex env) t
  <-> t < now env + 3600000.
Proof.
  intros Hi Hfresh. unfold holdsValidToken. split.
  - intros (v & e & Hin & Htok & Hexp & Hlt).
    apply list_elem_of_In, list_elem_of_lookup in Hin as [j Hj].
    apply list_lookup_insert_Some in Hj as [(_ & <- & _) | (_ & Hj)].
    + simpl in Hexp. injection Hexp as <-. assumption.
    + exfalso. unfold freshToken in Hfresh. rewrite Forall_lookup in Hfresh.
      exact (Hfresh _ _ Hj Htok).
  - intros Hlt. exists (issued env u), (now env + 3600000).
    split; [|auto].
    apply list_elem_of_In, list_elem_of_lookup. exists i.
    apply list_lookup_insert_eq. eapply lookup_lt_Some. eassumption.
Qed.

End Issue.

(** ** What bcrypt reads *)

Lemma substring0_short n s : (String.length s <= n)%nat -> substring 0 n s = s.
Proof.
  revert n. induction s as [|c s IH]; intros [|n] Hlen; simpl in *;
    try reflexivity; try lia.
  f_equal. apply IH. lia.
Qed.

Lemma substring0_length n s :
  String.length (substring 0 n s) = Nat.min n (String.length s).
Proof.
  revert n. induction s as [|c s IH]; intros [|n]; simpl; try reflexivity.
  now rewrite IH.
Qed.

Lemma bcrypt_read_short s : Js.length s <= 72 -> bcrypt_read s = s.
Proof.
  unfold Js.length, bcrypt_read. intros Hlen. apply substring0_short. lia.
Qed.

(** What is read of a password is a digest shorter than 72 characters only
    if the password is that digest. *)
Lemma bcrypt_read_digest p d :
  Js.length d < 72 -> bcrypt_read p = bcrypt_read d -> p = d.
Proof.
  intros Hlen Heq. rewrite (bcrypt_read_short d) in Heq by lia.
  pose proof (substring0_length 72 p) as Hp.
  fold (bcrypt_read p) in Hp. rewrite Heq in Hp.
  unfold Js.length in Hlen.
  rewrite <- Heq. symmetry. apply bcrypt_read_short. unfold Js.length. lia.
Qed.

Lemma symbolic_bcrypt_laws : BcryptLaws symbolic_bcrypt.
Proof.
  constructor; simpl.
  - intros s t salt H. rewrite H. apply String.eqb_refl.
  - intros s salt. eexists. reflexivity.
  - intros s salt. unfold Js.length. simpl. lia.
Qed.

Lemma symbolic_bcrypt_ideal : BcryptIdeal symbolic_bcrypt.
Proof.
  constructor; simpl.
  intros s t salt H. apply String.eqb_eq in H. simpl in H. congruence.
Qed.

(** C3, amended.  A token presented to validate-reset-token, or to
    reset-password together with a password the policy accepts, is accepted
    exactly when some stored document holds that very token with an expiry
    strictly after the time of the request; otherwise the answer is the one
    400 "Invalid or expired token" and nothing is written.  reset-password
    checks the password first: with a password the policy refuses it answers
    the policy message, whatever the token, and writes nothing.
    forgot-password, for an address it finds, stores the token drawn and the
    expiry [now + 3600000] ms in that document, whether or not the mail goes
    out; a document it changes carries both; so a token that no document
    held before is valid exactly until one hour after its issuance.  The
    route parameter is a non-empty segment, and the stored documents pass
    the schema's validators. *)
Theorem reset_token_acceptance {B : Bcrypt} {L : BcryptLaws B}
    (env : Env) (req : Request) (w : World) :
  params_token req <> "" ->
  Forall validDoc (db w) ->
  (holdsValidToken (db w) (params_token req) (now env) ->
     route (AuthV1.validateResetToken env req) w = (json 200 true "Token is valid", w)
     /\ route (AuthV2.validateResetToken env req) w = (json 200 true "Token is valid", w))
  /\ (~ holdsValidToken (db w) (params_token req) (now env) ->
     route (AuthV1.validateResetToken env req) w =
       (json 400 false "Invalid or expired token", w)
     /\ route (AuthV2.validateResetToken env req) w =
       (json 400 false "Invalid or expired token", w))
  /\ (AuthV2.resetPasswordRefuses (body_password req) = true ->
     route (AuthV1.resetPassword env req) w = (json 400 false AuthV2.policyMessage, w)
     /\ route (AuthV2.resetPassword env req) w = (json 400 false AuthV2.policyMessage, w))
  /\ (forall p,
        body_password req = Js.JStr p ->
        AuthV2.resetPasswordRefuses (Js.JStr p) = false ->
        (holdsValidToken (db w) (params_token req) (now env) ->
           fst (route (AuthV1.resetPassword env req) w) =
             json 200 true "Password has been reset successfully"
           /\ fst (route (AuthV2.resetPassword env req) w) =
             json 200 true "Password has been reset successfully")
        /\ (~ holdsValidToken (db w) (params_token req) (now env) ->
           route (AuthV1.resetPassword env req) w =
             (json 400 false "Invalid or expired token", w)
           /\ route (AuthV2.resetPassword env req) w =
             (json 400 false "Invalid or expired token", w)))
  /\ (forall w', w' = snd (route (AuthV1.forgotPassword env req) w)
                 \/ w' = snd (route (AuthV2.forgotPassword env req) w) ->
        (forall i u', db w' !! i = Some u' -> db w !! i <> Some u' ->
           resetPasswordToken u' = Some (randomBytesHex env)
           /\ resetPasswordExpire u' = Some (now env + 3600000))
        /\ (forall mail i u,
              body_email req = Js.JStr mail -> mail <> "" ->
              list_find (fun u => byEmail (Js.toLowerCase mail) u = true) (db w)
                = Some (i, u) ->
              (exists u', db w' !! i = Some u'
                          /\ resetPasswordToken u' = Some (randomBytesHex env)
                          /\ resetPasswordExpire u' = Some (now env + 3600000))
              /\ (freshToken env (db w) ->
                  forall t, holdsValidToken (db w') (randomBytesHex env) t
                            <-> t < now env + 3600000))).
Proof.
  intros Htok Hvalid.
  assert (Hrefused :
    AuthV2.resetPasswordRefuses (body_password req) = true ->
    route (AuthV1.resetPassword env req) w = (json 400 false AuthV2.policyMessage, w)
    /\ route (AuthV2.resetPassword env req) w = (json 400 false AuthV2.policyMessage, w)).
  { intros Href. split.
    - now apply reset_v1_refused.
    - now apply reset_v2_refused. }
  assert (Hissue :
    forall w', w' = snd (route (AuthV1.forgotPassword env req) w)
               \/ w' = snd (route (AuthV2.forgotPassword env req) w) ->
      (forall i u', db w' !! i = Some u' -> db w !! i <> Some u' ->
         resetPasswordToken u' = Some (randomBytesHex env)
         /\ resetPasswordExpire u' = Some (now env + 3600000))
      /\ (forall mail i u,
            body_email req = Js.JStr mail -> mail <> "" ->
            list_find (fun u => byEmail (Js.toLowerCase mail) u = true) (db w)
              = Some (i, u) ->
            (exists u', db w' !! i = Some u'
                        /\ resetPasswordToken u' = Some (randomBytesHex env)
                        /\ resetPasswordExpire u' = Some (now env + 3600000))
            /\ (freshToken env (db w) ->
                forall t, holdsValidToken (db w') (randomBytesHex env) t
                          <-> t < now env + 3600000))).
  { intros w' Hw'. split.
    - assert (Heff : db w' = db w
                \/ exists mail i u,
                     body_email req = Js.JStr mail
                     /\ list_find (fun u => byEmail (Js.toLowerCase mail) u = true) (db w)
                        = Some (i, u)
                     /\ db w' = <[i := issued env u]> (db w)).
      { destruct Hw' as [-> | ->];
          [apply forgot_v1_effect | apply forgot_v2_effect]. }
      destruct Heff as [Heq | (mail & i & u & _ & Hfind & Heq)]; rewrite Heq.
      + intros j u' Hj Hne; contradiction.
      + intros j u' Hj Hne.
        apply list_lookup_insert_Some in Hj as [(_ & <- & _) | (_ & Hj)];
          [split; reflexivity | contradiction].
    - intros mail i u Hmail Hne Hfind.
      assert (Hi : db w !! i = Some u)
        by (apply list_find_Some in Hfind as (Hi & _); exact Hi).
      assert (Hu : validDoc u)
        by (rewrite Forall_lookup in Hvalid; exact (Hvalid _ _ Hi)).
      assert (Heq : db w' = <[i := issued env u]> (db w)).
      { destruct Hw' as [-> | ->].
        - apply (forgot_found_db env req w _ mail i u (or_introl eq_refl)
                   Hmail Hne Hfind Hu).
        - apply (forgot_found_db env req w _ mail i u (or_intror eq_refl)
                   Hmail Hne Hfind Hu). }
      rewrite Heq. split.
      + exists (issued env u). split; [|split; reflexivity].
        apply list_lookup_insert_eq. exact (lookup_lt_Some _ _ _ Hi).
      + intros Hfresh t. now apply issued_valid_until. }
  pose proof (find_token_iff (db w) (params_token req) (now env)) as Hiff.
  destruct (list_find _ (db w)) as [[i u]|] eqn:Hfind.
  - assert (Hholds : holdsValidToken (db w) (params_token req) (now env))
      by (apply Hiff; eauto).
    assert (Hu : validDoc u).
    { apply list_find_Some in Hfind as (Hi & _).
      rewrite Forall_lookup in Hvalid. exact (Hvalid _ _ Hi). }
    destruct Hu as (Hn & He & _).
    split; [|split; [|split; [exact Hrefused|split; [|exact Hissue]]]].
    + intros _. split.
      * eapply validate_v1_found; eassumption.
      * eapply validate_v2_found; eassumption.
    + intros Hno. contradiction.
    + intros p Hp Hpol. split; [|intros Hno; contradiction].
      intros _. split.
      * now rewrite (reset_v1_found env req w p i u Htok Hp Hpol Hfind Hn He).
      * now rewrite (reset_v2_found env req w p i u Hp Hpol Hfind Hn He).
  - assert (Hno : ~ holdsValidToken (db w) (params_token req) (now env)).
    { intros H. apply Hiff in H as [? H]. discriminate. }
    split; [|split; [|split; [exact Hrefused|split; [|exact Hissue]]]].
    + intros H. contradiction.
    + intros _. split.
      * now apply validate_v1_not_found.
      * now apply validate_v2_not_found.
    + intros p Hp Hpol. split; [intros H; contradiction|].
      intros _. split.
      * now apply (reset_v1_not_found env req w p).
      * now apply (reset_v2_not_found env req w p).
Qed.

Lemma reset_token_acceptance_witness :
  let req := withToken (randomBytesHex Scenario.env0) (Js.JStr "NewStr0ng!1") in
  params_token req <> ""
  /\ Forall validDoc (db Scenario.asked)
  /\ route (AuthV2.validateResetToken Scenario.env1 req) Scenario.asked
     = (json 200 true "Token is valid", Scenario.asked).
Proof.
  assert (H1 : params_token (withToken (randomBytesHex Scenario.env0)
                               (Js.JStr "NewStr0ng!1")) <> "") by discriminate.
  assert (H2 : Forall validDoc (db Scenario.asked))
    by (repeat constructor; discriminate).
  split; [exact H1|]. split; [exact H2|].
  destruct (reset_token_acceptance (B := symbolic_bcrypt) (L := symbolic_bcrypt_laws)
              Scenario.env1
              (withToken (randomBytesHex Scenario.env0) (Js.JStr "NewStr0ng!1"))
              Scenario.asked H1 H2) as (Hyes & _).
  apply Hyes.
  exists Scenario.janeAsked, (now Scenario.env0 + hour).
  split; [left; reflexivity|]. repeat split.
Defined.

(** As first worded, the claim fails at a password the policy refuses:
    half an hour after its issuance Jane's token is held and valid, and
    reset-password with it and the password ["short1!"] is answered the
    policy message and resets nothing; with the token ["0000"], which no
    document holds, the same password is answered the same policy message,
    not "Invalid or expired token". *)
Lemma reset_token_acceptance_counterexample :
  let valid := withToken (randomBytesHex Scenario.env0) (Js.JStr "short1!") in
  let wrong := withToken "0000" (Js.JStr "short1!") in
  holdsValidToken (db Scenario.asked) (params_token valid) (now Scenario.env1)
  /\ route (AuthV1.resetPassword (B := symbolic_bcrypt) Scenario.env1 valid) Scenario.asked
     = (json 400 false AuthV2.policyMessage, Scenario.asked)
  /\ route (AuthV2.resetPassword (B := symbolic_bcrypt) Scenario.env1 valid) Scenario.asked
     = (json 400 false AuthV2.policyMessage, Scenario.asked)
  /\ ~ holdsValidToken (db Scenario.asked) (params_token wrong) (now Scenario.env1)
  /\ route (AuthV1.resetPassword (B := symbolic_bcrypt) Scenario.env1 wrong) Scenario.asked
     = (json 400 false AuthV2.policyMessage, Scenario.asked)
  /\ route (AuthV2.resetPassword (B := symbolic_bcrypt) Scenario.env1 wrong) Scenario.asked
     = (json 400 false AuthV2.policyMessage, Scenario.asked)
  /\ AuthV2.policyMessage <> "Invalid or expired token".
Proof.
  split.
  { exists Scenario.janeAsked, (now Scenario.env0 + hour).
    split; [left; reflexivity|]. repeat split. }
  split; [reflexivity|]. split; [reflexivity|].
  split.
  { intros (v & e & [<-|[]] & Hheld & _). discriminate Hheld. }
  split; [reflexivity|]. split; [reflexivity|]. discriminate.
Qed.

(** ** Single use *)

Section SingleUse.
Context {B : Bcrypt}.

Lemma reachable_uniqueTokens w : reachable w -> uniqueTokens (db w).
Proof.
  induction 1 as [| w rev ep h env req _ IH Hroute Hfresh].
  - intros i j u v t Hi. simpl in Hi. rewrite lookup_nil in Hi. discriminate.
  - eapply dbStep_tokens; [|eassumption|assumption].
    apply (handler_step rev ep h env req w Hroute).
Qed.

(** What a reset that answers with success did. *)
Lemma reset_v2_success_inv env req w :
  res_success (fst (route (AuthV2.resetPassword env req) w)) = true ->
  exists p i u,
    body_password req = Js.JStr p
    /\ list_find (fun u => byValidResetToken (params_token req) (now env) u = true) (db w)
       = Some (i, u)
    /\ route (AuthV2.resetPassword env req) w =
         (json 200 true "Password has been reset successfully",
          mkWorld (<[i := mkUser (fullName u) (email u) (storedV2 env p u) None None]> (db w))
                  (outbox w)).
Proof.
  unfold AuthV2.resetPassword. run.
  destruct (body_password req) as [| |b|n|p|]; simpl; try discriminate.
  destruct (_ || _)%bool; simpl; [discriminate|].
  unfold findOne.
  destruct (list_find _ (db w)) as [[i u]|] eqn:Hfind; simpl; [|discriminate].
  unfold save. destruct (validate _) as [e|] eqn:Hval; simpl.
  { rewrite globalErrorHandler_fails. discriminate. }
  intros _. exists p, i, u. split; [reflexivity|]. split; [reflexivity|].
  unfold storedV2, setReset, setPassword, preSave. simpl.
  destruct (String.eqb p (password u)); reflexivity.
Qed.

Lemma reset_v1_success_inv env req w :
  res_success (fst (route (AuthV1.resetPassword env req) w)) = true ->
  exists p i u,
    body_password req = Js.JStr p
    /\ list_find (fun u => byValidResetToken (params_token req) (now env) u = true) (db w)
       = Some (i, u)
    /\ route (AuthV1.resetPassword env req) w =
         (json 200 true "Password has been reset successfully",
          mkWorld (<[i := mkUser (fullName u) (email u) (storedV1 env p u) None None]> (db w))
                  (outbox w)).
Proof.
  unfold AuthV1.resetPassword. run.
  destruct (String.eqb _ ""); [discriminate|].
  destruct (body_password req) as [| |b|n|p|]; simpl; try discriminate.
  destruct (_ || _)%bool; simpl; [discriminate|].
  unfold findOne.
  destruct (list_find _ (db w)) as [[i u]|] eqn:Hfind; simpl; [|discriminate].
  unfold save. destruct (validate _) as [e|] eqn:Hval; simpl.
  { rewrite globalErrorHandler_fails. discriminate. }
  intros _. exists p, i, u. split; [reflexivity|]. split; [reflexivity|].
  unfold storedV1, setReset, setPassword, preSave. simpl.
  destruct (String.eqb _ (password u)); reflexivity.
Qed.

(** Once the one document that held a token has its reset fields cleared,
    no document holds the token. *)
Lemma cleared_token_gone users token t i u pw t' :
  uniqueTokens users ->
  list_find (fun u => byValidResetToken token t u = true) users = Some (i, u) ->
  ~ holdsValidToken (<[i := mkUser (fullName u) (email u) pw None None]> users) token t'.
Proof.
  intros Huniq Hfind (v & e & Hin & Htok & _).
  apply list_find_Some in Hfind as (Hi & Hu & _).
  apply byValidResetToken_true in Hu as (e' & Hutok & _).
  apply list_elem_of_In, list_elem_of_lookup in Hin as [j Hj].
  apply list_lookup_insert_Some in Hj as [(_ & <- & _) | (Hne & Hj)].
  - discriminate.
  - apply Hne. exact (Huniq _ _ _ _ _ Hi Hj Hutok Htok).
Qed.

(** A token that no document holds is refused by all four token routes,
    and nothing is written. *)
Lemma gone_token_rejected env req w :
  params_token req <> "" ->
  ~ holdsValidToken (db w) (params_token req) (now env) ->
  route (AuthV1.validateResetToken env req) w =
    (json 400 false "Invalid or expired token", w)
  /\ route (AuthV2.validateResetToken env req) w =
    (json 400 false "Invalid or expired token", w)
  /\ res_success (fst (route (AuthV1.resetPassword env req) w)) = false
  /\ snd (route (AuthV1.resetPassword env req) w) = w
  /\ res_success (fst (route (AuthV2.resetPassword env req) w)) = false
  /\ snd (route (AuthV2.resetPassword env req) w) = w.
Proof.
  intros Htok Hno.
  assert (Hfind : list_find (fun u => byValidResetToken (params_token req) (now env) u = true)
                    (db w) = None).
  { destruct (list_find _ (db w)) eqn:H; [|reflexivity].
    exfalso. apply Hno, find_token_iff. rewrite H. eauto. }
  split; [now apply validate_v1_not_found|].
  split; [now apply validate_v2_not_found|].
  destruct (body_password req) as [| |b|n|p|] eqn:Hp;
    try (unfold AuthV1.resetPassword, AuthV2.resetPassword;
         apply String.eqb_neq in Htok; rewrite Htok, Hp; repeat split; reflexivity).
  destruct (AuthV2.resetPasswordRefuses (Js.JStr p)) eqn:Hpol.
  - rewrite reset_v1_refused, reset_v2_refused by (rewrite ?Hp; assumption).
    repeat split; reflexivity.
  - rewrite (reset_v1_not_found env req w p), (reset_v2_not_found env req w p)
      by assumption.
    repeat split; reflexivity.
Qed.

End SingleUse.

(** C4. In every reachable state, a reset-password request that succeeds
    (in either revision) has written one document: the one that held the
    presented token, with its password replaced and [resetPasswordToken]
    and [resetPasswordExpire] both absent, all in the single [save].
    Thereafter the same token is refused, at any time: validate-reset-token
    answers 400 "Invalid or expired token", reset-password fails, and
    neither writes anything. *)
Theorem reset_token_single_use {B : Bcrypt}
    (env : Env) (req : Request) (w : World) (r : Response * World) :
  reachable w ->
  params_token req <> "" ->
  r = route (AuthV1.resetPassword env req) w
  \/ r = route (AuthV2.resetPassword env req) w ->
  res_success (fst r) = true ->
  (exists p i u pw,
      body_password req = Js.JStr p
      /\ db w !! i = Some u
      /\ resetPasswordToken u = Some (params_token req)
      /\ (pw = storedV1 env p u \/ pw = storedV2 env p u)
      /\ snd r = mkWorld (<[i := mkUser (fullName u) (email u) pw None None]> (db w))
                         (outbox w))
  /\ forall env' req',
       params_token req' = params_token req ->
       route (AuthV1.validateResetToken env' req') (snd r) =
         (json 400 false "Invalid or expired token", snd r)
       /\ route (AuthV2.validateResetToken env' req') (snd r) =
         (json 400 false "Invalid or expired token", snd r)
       /\ res_success (fst (route (AuthV1.resetPassword env' req') (snd r))) = false
       /\ snd (route (AuthV1.resetPassword env' req') (snd r)) = snd r
       /\ res_success (fst (route (AuthV2.resetPassword env' req') (snd r))) = false
       /\ snd (route (AuthV2.resetPassword env' req') (snd r)) = snd r.
Proof.
  intros Hreach Htok Hr Hsucc.
  pose proof (reachable_uniqueTokens w Hreach) as Huniq.
  assert (Hinv : exists p i u pw,
             body_password req = Js.JStr p
             /\ list_find (fun u => byValidResetToken (params_token req) (now env) u = true)
                  (db w) = Some (i, u)
             /\ (pw = storedV1 env p u \/ pw = storedV2 env p u)
             /\ snd r = mkWorld (<[i := mkUser (fullName u) (email u) pw None None]> (db w))
                                (outbox w)).
  { destruct Hr as [-> | ->].
    - destruct (reset_v1_success_inv env req w Hsucc) as (p & i & u & Hp & Hfind & Heq).
      exists p, i, u, (storedV1 env p u). rewrite Heq. auto.
    - destruct (reset_v2_success_inv env req w Hsucc) as (p & i & u & Hp & Hfind & Heq).
      exists p, i, u, (storedV2 env p u). rewrite Heq. auto. }
  destruct Hinv as (p & i & u & pw & Hp & Hfind & Hpw & Hw).
  split.
  - exists p, i, u, pw.
    apply list_find_Some in Hfind as (Hi & Hu & _).
    apply byValidResetToken_true in Hu as (e & Hutok & _).
    auto.
  - intros env' req' Hsame.
    apply gone_token_rejected; [congruence|].
    rewrite Hsame, Hw. simpl.
    eapply cleared_token_gone; eassumption.
Qed.

Lemma scenario_reachable : reachable (B := symbolic_bcrypt) Scenario.asked.
Proof.
  change Scenario.asked with
    (snd (route (AuthV2.forgotPassword (B := symbolic_bcrypt) Scenario.env0
                   (post Js.JUndefined (Js.JStr "jane@test.com") Js.JUndefined))
                Scenario.registered)).
  apply (reachable_step _ V2 ForgotPassword); [|reflexivity|].
  - change Scenario.registered with
      (snd (route (AuthV2.register (B := symbolic_bcrypt) Scenario.env0
                     (post (Js.JStr "Jane Doe") (Js.JStr "Jane@Test.com")
                           (Js.JStr "Str0ng!Pass")))
                  Scenario.empty)).
    apply (reachable_step _ V2 Register); [|reflexivity|].
    + apply reachable_init.
    + constructor.
  - repeat constructor. discriminate.
Qed.

Lemma reset_token_single_use_witness :
  let req := withToken (randomBytesHex Scenario.env0) (Js.JStr "NewStr0ng!1") in
  let r := route (AuthV2.resetPassword (B := symbolic_bcrypt) Scenario.env1 req)
                 Scenario.asked in
  res_success (fst r) = true
  /\ route (AuthV2.validateResetToken Scenario.env1 req) (snd r) =
       (json 400 false "Invalid or expired token", snd r).
Proof.
  split; [reflexivity|].
  refine (proj1 (proj2 (proj2 (reset_token_single_use (B := symbolic_bcrypt)
            Scenario.env1
            (withToken (randomBytesHex Scenario.env0) (Js.JStr "NewStr0ng!1"))
            Scenario.asked _ scenario_reachable _ (or_intror eq_refl) eq_refl)
          Scenario.env1
          (withToken (randomBytesHex Scenario.env0) (Js.JStr "NewStr0ng!1"))
          eq_refl))).
  discriminate.
Defined.

(** ** Login after a reset *)

Lemma list_find_insert_same {A} (P : A -> Prop) `{forall x, Decision (P x)}
    (l : list A) i x y :
  list_find P l = Some (i, x) -> P y ->
  list_find P (<[i := y]> l) = Some (i, y).
Proof.
  intros Hfind Hy. apply list_find_Some in Hfind as (Hi & Hx & Hbefore).
  apply list_find_Some. split; [|split].
  - apply list_lookup_insert_eq. exact (lookup_lt_Some _ _ _ Hi).
  - assumption.
  - intros j z Hj Hlt.
    rewrite list_lookup_insert_ne in Hj by lia.
    eapply Hbefore; eassumption.
Qed.

Section LoginAfterReset.
Context {B : Bcrypt}.

(** A login that finds a document succeeds exactly when bcrypt verifies
    the submitted password against the stored one. *)
Lemma login_found env req w mail p i x :
  body_email req = Js.JStr mail -> mail <> "" ->
  body_password req = Js.JStr p -> p <> "" ->
  list_find (fun u => byEmail (Js.toLowerCase (Js.trim mail)) u = true) (db w)
    = Some (i, x) ->
  route (AuthV2.login env req) w =
    (if bcrypt_compare p (password x)
     then mkResponse 200 true "Login successful" (Some (i, email x))
     else json 400 false "Invalid email or password", w).
Proof.
  intros Hmail Hne Hp Hpne Hfind.
  apply String.eqb_neq in Hne, Hpne.
  unfold AuthV2.login, route, bind. rewrite Hmail, Hp. simpl.
  rewrite Hne, Hpne. simpl.
  rewrite (findOne_found _ _ _ _ Hfind). simpl.
  destruct (bcrypt_compare p (password x)); reflexivity.
Qed.

Context {L : BcryptLaws B} {I : BcryptIdeal B}.

Lemma hash_not_self c p salt : c <> "$"%char -> String c p <> bcrypt_hash (String c p) salt.
Proof.
  intros Hc Heq. destruct (hash_format (String c p) salt) as [r Hr].
  rewrite Hr in Heq. congruence.
Qed.

(** C1, first revision.  The handler assigns its own digest of the new
    password and [save] runs the pre-save hook on it: after a successful
    reset-password to [p] the stored password is [hash (hash p)], which does
    not verify [p], and a login with the new password is refused.  (The
    digest the handler computes is taken to differ from the stored password,
    so that the assignment modifies the path, and from [p] itself, as it
    does for every [p] that does not start with a dollar sign; it is
    shorter than the 72 characters bcrypt reads, as the 60 characters of a
    bcrypt digest are.) *)
Theorem reset_v1_then_login_fails env req w p i u env' mail :
  params_token req <> "" ->
  body_password req = Js.JStr p ->
  AuthV1.resetPasswordRefuses (Js.JStr p) = false ->
  list_find (fun u => byValidResetToken (params_token req) (now env) u = true) (db w)
    = Some (i, u) ->
  fullName u <> "" -> email u <> "" ->
  bcrypt_hash p (routeSalt env) <> password u ->
  p <> bcrypt_hash p (routeSalt env) ->
  Js.length (bcrypt_hash p (routeSalt env)) < 72 ->
  mail <> "" ->
  list_find (fun u => byEmail (Js.toLowerCase (Js.trim mail)) u = true) (db w)
    = Some (i, u) ->
  let r := route (AuthV1.resetPassword env req) w in
  fst r = json 200 true "Password has been reset successfully"
  /\ db (snd r) =
       <[i := mkUser (fullName u) (email u)
                (bcrypt_hash (bcrypt_hash p (routeSalt env)) (hookSalt env))
                None None]> (db w)
  /\ route (AuthV2.login env' (post Js.JUndefined (Js.JStr mail) (Js.JStr p))) (snd r)
     = (json 400 false "Invalid email or password", snd r).
Proof.
  intros Htok Hp Hpol Hfind Hn He Hmod Hfix Hshort Hmail Hlogin r.
  subst r. rewrite (reset_v1_found env req w p i u Htok Hp Hpol Hfind Hn He).
  assert (Hstored : storedV1 env p u =
            bcrypt_hash (bcrypt_hash p (routeSalt env)) (hookSalt env)).
  { unfold storedV1. apply String.eqb_neq in Hmod. now rewrite Hmod. }
  rewrite Hstored. simpl. split; [reflexivity|]. split; [reflexivity|].
  assert (Hfound : list_find (fun u0 => byEmail (Js.toLowerCase (Js.trim mail)) u0 = true)
            (<[i := mkUser (fullName u) (email u)
                      (bcrypt_hash (bcrypt_hash p (routeSalt env)) (hookSalt env))
                      None None]> (db w))
          = Some (i, mkUser (fullName u) (email u)
                       (bcrypt_hash (bcrypt_hash p (routeSalt env)) (hookSalt env))
                       None None)).
  { apply (list_find_insert_same _ _ _ u _ Hlogin).
    apply list_find_Some in Hlogin as (_ & Hu & _). exact Hu. }
  erewrite login_found; [ | reflexivity | assumption | reflexivity
                          | apply long_nonempty, accepted_length, Hpol
                          | exact Hfound ].
  simpl.
  destruct (bcrypt_compare p _) eqn:Hcmp; [|reflexivity].
  apply compare_sound, bcrypt_read_digest in Hcmp; [contradiction | exact Hshort].
Qed.


End LoginAfterReset.

Lemma reset_v1_then_login_fails_witness :
  let req := withToken (randomBytesHex Scenario.env0) (Js.JStr "NewStr0ng!1") in
  let r := route (AuthV1.resetPassword (B := symbolic_bcrypt) Scenario.env1 req)
                 Scenario.asked in
  fst r = json 200 true "Password has been reset successfully"
  /\ db (snd r) =
       [mkUser "Jane Doe" "jane@test.com" "$2b$sym$$2b$sym$NewStr0ng!1" None None]
  /\ route (AuthV2.login (B := symbolic_bcrypt) Scenario.env1
              (post Js.JUndefined (Js.JStr "Jane@Test.com") (Js.JStr "NewStr0ng!1")))
           (snd r)
     = (json 400 false "Invalid email or password", snd r).
Proof.
  apply (reset_v1_then_login_fails (B := symbolic_bcrypt) (L := symbolic_bcrypt_laws)
           (I := symbolic_bcrypt_ideal) Scenario.env1
           (withToken (randomBytesHex Scenario.env0) (Js.JStr "NewStr0ng!1"))
           Scenario.asked "NewStr0ng!1" 0%nat Scenario.janeAsked
           Scenario.env1 "Jane@Test.com");
    try reflexivity; discriminate.
Defined.

(** ** Forgot-password and the existence of an account *)

Section Forgot.
Context {B : Bcrypt}.

Lemma forgot_v1_found env req w mail i u :
  body_email req = Js.JStr mail -> mail <> "" ->
  list_find (fun u => byEmail (Js.toLowerCase mail) u = true) (db w) = Some (i, u) ->
  validDoc u ->
  smtpConfigured env = true -> sendMailOk env = true ->
  route (AuthV1.forgotPassword env req) w =
    (json 200 true "Password reset email sent if account exists",
     mkWorld (<[i := issued env u]> (db w))
             (outbox w ++ [(email u, randomBytesHex env)])).
Proof.
  intros Hmail Hne Hfind Hv Hcfg Hsend. apply String.eqb_neq in Hne.
  unfold AuthV1.forgotPassword, route, bind. rewrite Hmail. simpl. rewrite Hne. simpl.
  rewrite (findOne_found _ _ _ _ Hfind).
  rewrite save_update; [| reflexivity | apply validate_ok; exact Hv].
  unfold sendResetEmail. rewrite Hcfg, Hsend. reflexivity.
Qed.

Lemma absent_not_found key users :
  (forall u, In u users -> email u <> key) ->
  list_find (fun u => byEmail key u = true) users = None.
Proof.
  intros Habs. apply list_find_None, Forall_forall.
  intros u Hin Hu. apply byEmail_true in Hu.
  apply (Habs u); [now apply list_elem_of_In | assumption].
Qed.

Lemma forgot_v1_absent env req w mail :
  body_email req = Js.JStr mail -> mail <> "" ->
  (forall u, In u (db w) -> email u <> Js.toLowerCase mail) ->
  route (AuthV1.forgotPassword env req) w =
    (json 404 false "No account found with that email", w).
Proof.
  intros Hmail Hne Habs. apply String.eqb_neq in Hne.
  unfold AuthV1.forgotPassword, route, bind. rewrite Hmail. simpl. rewrite Hne. simpl.
  now rewrite (findOne_none _ _ (absent_not_found _ _ Habs)).
Qed.

Lemma forgot_v2_absent env req w mail :
  body_email req = Js.JStr mail -> mail <> "" ->
  (forall u, In u (db w) -> email u <> Js.toLowerCase mail) ->
  route (AuthV2.forgotPassword env req) w =
    (json 200 true "If an account with that email exists, a reset link will be sent", w).
Proof.
  intros Hmail Hne Habs. apply String.eqb_neq in Hne.
  unfold AuthV2.forgotPassword, route, bind. rewrite Hmail. simpl. rewrite Hne. simpl.
  now rewrite (findOne_none _ _ (absent_not_found _ _ Habs)).
Qed.

(** C2, first revision.  For an address that is a non-empty string, the
    forgot-password handler of the first revision answers 404 with
    [success: false] when no document holds the lowercased address, and
    200 with [success: true] when one does: the response reveals whether
    the account exists. *)
Theorem forgot_v1_reveals_absence env req mail (w1 w2 : World) i u :
  body_email req = Js.JStr mail -> mail <> "" ->
  (forall v, In v (db w1) -> email v <> Js.toLowerCase mail) ->
  list_find (fun u => byEmail (Js.toLowerCase mail) u = true) (db w2) = Some (i, u) ->
  validDoc u ->
  smtpConfigured env = true -> sendMailOk env = true ->
  fst (route (AuthV1.forgotPassword env req) w1) =
    json 404 false "No account found with that email"
  /\ fst (route (AuthV1.forgotPassword env req) w2) =
    json 200 true "Password reset email sent if account exists".
Proof.
  intros Hmail Hne Habs Hfind Hv Hcfg Hsend. split.
  - now rewrite (forgot_v1_absent env req w1 mail).
  - now rewrite (forgot_v1_found env req w2 mail i u).
Qed.

(** The second revision answers both with 200 and [success: true]. *)
Lemma forgot_v2_generic env req mail (w1 w2 : World) i u :
  body_email req = Js.JStr mail -> mail <> "" ->
  (forall v, In v (db w1) -> email v <> Js.toLowerCase mail) ->
  list_find (fun u => byEmail (Js.toLowerCase mail) u = true) (db w2) = Some (i, u) ->
  validDoc u ->
  smtpConfigured env = true -> sendMailOk env = true ->
  let r1 := fst (route (AuthV2.forgotPassword env req) w1) in
  let r2 := fst (route (AuthV2.forgotPassword env req) w2) in
  res_status r1 = 200 /\ res_status r2 = 200
  /\ res_success r1 = true /\ res_success r2 = true.
Proof.
  intros Hmail Hne Habs Hfind Hv Hcfg Hsend.
  rewrite (forgot_v2_absent env req w1 mail) by assumption.
  rewrite (forgot_v2_found env req w2 mail i u) by assumption.
  repeat split.
Qed.

End Forgot.

Lemma forgot_v1_reveals_absence_witness :
  let req := post Js.JUndefined (Js.JStr "jane@test.com") Js.JUndefined in
  fst (route (AuthV1.forgotPassword (B := symbolic_bcrypt) Scenario.env0 req)
             Scenario.empty)
    = json 404 false "No account found with that email"
  /\ fst (route (AuthV1.forgotPassword (B := symbolic_bcrypt) Scenario.env0 req)
                Scenario.registered)
    = json 200 true "Password reset email sent if account exists".
Proof.
  apply (forgot_v1_reveals_absence (B := symbolic_bcrypt) Scenario.env0
           (post Js.JUndefined (Js.JStr "jane@test.com") Js.JUndefined)
           "jane@test.com" Scenario.empty Scenario.registered 0%nat Scenario.jane);
    try reflexivity.
  - discriminate.
  - intros v [].
  - repeat split; discriminate.
Defined.

(** ** Normalisation of the address *)

(** C7, forgot-password.  Register's duplicate check and login look the
    user up by the trimmed and lowercased address; forgot-password
    lowercases only.  For Jane, registered as [jane@test.com], the address
    written with surrounding spaces logs in and is a duplicate at
    register, but forgot-password finds no account under it: no token is
    issued and no mail is sent.  The case variant without spaces is
    resolved. *)
Theorem forgot_password_lookup_untrimmed :
  fst (route (AuthV2.login (B := symbolic_bcrypt) Scenario.env0
                (post Js.JUndefined (Js.JStr " Jane@Test.com ") (Js.JStr "Str0ng!Pass")))
             Scenario.registered)
    = mkResponse 200 true "Login successful" (Some (0%nat, "jane@test.com"))
  /\ fst (route (AuthV2.register (B := symbolic_bcrypt) Scenario.env0
                   (post (Js.JStr "Jane Doe") (Js.JStr " Jane@Test.com ")
                         (Js.JStr "Str0ng!Pass")))
                Scenario.registered)
    = json 400 false "User with this email already exists"
  /\ route (AuthV2.forgotPassword (B := symbolic_bcrypt) Scenario.env0
              (post Js.JUndefined (Js.JStr " Jane@Test.com ") Js.JUndefined))
           Scenario.registered
    = (json 200 true "If an account with that email exists, a reset link will be sent",
       Scenario.registered)
  /\ route (AuthV1.forgotPassword (B := symbolic_bcrypt) Scenario.env0
              (post Js.JUndefined (Js.JStr " Jane@Test.com ") Js.JUndefined))
           Scenario.registered
    = (json 404 false "No account found with that email", Scenario.registered)
  /\ route (AuthV2.forgotPassword (B := symbolic_bcrypt) Scenario.env0
              (post Js.JUndefined (Js.JStr "Jane@Test.com") Js.JUndefined))
           Scenario.registered
    = (json 200 true "Password reset email sent if account exists", Scenario.asked).
Proof. repeat split. Qed.

Section Normalised.
Context {B : Bcrypt}.

(** Login sees only the trimmed, lowercased address. *)
Lemma login_normalised env tok name pw m m' w :
  m <> "" -> m' <> "" ->
  Js.toLowerCase (Js.trim m) = Js.toLowerCase (Js.trim m') ->
  route (AuthV2.login env (mkRequest tok name (Js.JStr m) pw)) w
  = route (AuthV2.login env (mkRequest tok name (Js.JStr m') pw)) w.
Proof.
  intros Hm Hm' Hnorm. apply String.eqb_neq in Hm, Hm'.
  unfold AuthV2.login, theString, route, bind.
  cbn [body_email body_password Js.truthy]. rewrite Hm, Hm'. cbn [negb orb].
  unfold ret. now rewrite Hnorm.
Qed.

(** So does register, its duplicate check included. *)
Lemma register_normalised env tok name pw m m' w :
  Js.toLowerCase (Js.trim m) = Js.toLowerCase (Js.trim m') ->
  route (AuthV2.register env (mkRequest tok name (Js.JStr m) pw)) w
  = route (AuthV2.register env (mkRequest tok name (Js.JStr m') pw)) w.
Proof.
  intros Hnorm.
  unfold AuthV2.register, AuthV2.nameRefused, theString, route, bind.
  unfold ret, throw.
  cbn [body_fullName body_email body_password].
  destruct name as [| |b|n|nm|]; try reflexivity;
    try (destruct (negb (Js.truthy _)); reflexivity).
  destruct (negb (Js.truthy (Js.JStr nm))); [reflexivity|].
  destruct (Js.length (Js.trim nm) <? 2); [reflexivity|].
  destruct (AuthV2.registerRefuses pw); [reflexivity|].
  destruct pw; try reflexivity.
  now rewrite Hnorm.
Qed.

(** Forgot-password sees the lowercased address, untrimmed. *)
Lemma forgot_case_insensitive env tok name pw m m' w :
  m <> "" -> m' <> "" ->
  Js.toLowerCase m = Js.toLowerCase m' ->
  route (AuthV2.forgotPassword env (mkRequest tok name (Js.JStr m) pw)) w
  = route (AuthV2.forgotPassword env (mkRequest tok name (Js.JStr m') pw)) w
  /\ route (AuthV1.forgotPassword env (mkRequest tok name (Js.JStr m) pw)) w
  = route (AuthV1.forgotPassword env (mkRequest tok name (Js.JStr m') pw)) w.
Proof.
  intros Hm Hm' Hnorm. apply String.eqb_neq in Hm, Hm'.
  unfold AuthV2.forgotPassword, AuthV1.forgotPassword.
  cbn [body_email Js.truthy]. now rewrite Hm, Hm', Hnorm.
Qed.

End Normalised.

(** ** The end-to-end scenario of the specification *)

Example end_to_end :
  let B := symbolic_bcrypt in
  let token := randomBytesHex Scenario.env0 in
  let login p := post Js.JUndefined (Js.JStr "jane@TEST.com") (Js.JStr p) in
  route (AuthV2.register Scenario.env0
           (post (Js.JStr "Jane Doe") (Js.JStr "Jane@Test.com") (Js.JStr "Str0ng!Pass")))
        Scenario.empty
    = (mkResponse 201 true "User registered successfully" (Some (0%nat, "jane@test.com")),
       Scenario.registered)
  /\ fst (route (AuthV2.login Scenario.env0 (login "Str0ng!Pass")) Scenario.registered)
     = mkResponse 200 true "Login successful" (Some (0%nat, "jane@test.com"))
  /\ route (AuthV2.forgotPassword Scenario.env0
              (post Js.JUndefined (Js.JStr "jane@test.com") Js.JUndefined))
           Scenario.registered
     = (json 200 true "Password reset email sent if account exists", Scenario.asked)
  /\ exists done,
       route (AuthV2.resetPassword Scenario.env1 (withToken token (Js.JStr "NewStr0ng!1")))
             Scenario.asked
       = (json 200 true "Password has been reset successfully", done)
       /\ fst (route (AuthV2.login Scenario.env1 (login "Str0ng!Pass")) done)
          = json 400 false "Invalid email or password"
       /\ fst (route (AuthV2.login Scenario.env1 (login "NewStr0ng!1")) done)
          = mkResponse 200 true "Login successful" (Some (0%nat, "jane@test.com"))
       /\ fst (route (AuthV2.resetPassword Scenario.env1
                        (withToken token (Js.JStr "NewStr0ng!1"))) done)
          = json 400 false "Invalid or expired token".
Proof.
  repeat split. eexists. repeat split.
Qed.

(** * Further properties of the routes *)

(** ** Trimming and lowercasing *)

Lemma isSpace_lowerChar c : Js.isSpace (Js.lowerChar c) = Js.isSpace c.
Proof. destruct c as [[] [] [] [] [] [] [] []]; reflexivity. Qed.

Lemma trimStart_lower s :
  Js.toLowerCase (Js.trimStart s) = Js.trimStart (Js.toLowerCase s).
Proof.
  induction s as [|c s IH]; simpl; [reflexivity|].
  rewrite isSpace_lowerChar. destruct (Js.isSpace c); [exact IH | reflexivity].
Qed.

Lemma trimEnd_lower s :
  Js.toLowerCase (Js.trimEnd s) = Js.trimEnd (Js.toLowerCase s).
Proof.
  induction s as [|c s IH]; simpl; [reflexivity|].
  rewrite <- IH, isSpace_lowerChar.
  destruct (Js.trimEnd s); simpl; [|reflexivity].
  destruct (Js.isSpace c); reflexivity.
Qed.

Lemma trim_lower s : Js.toLowerCase (Js.trim s) = Js.trim (Js.toLowerCase s).
Proof. unfold Js.trim. now rewrite trimEnd_lower, trimStart_lower. Qed.

Lemma trimEnd_idem s : Js.trimEnd (Js.trimEnd s) = Js.trimEnd s.
Proof.
  induction s as [|c s IH]; simpl; [reflexivity|].
  destruct (Js.trimEnd s) as [|c' r] eqn:Hr.
  - destruct (Js.isSpace c) eqn:Hc; simpl; [reflexivity|]. now rewrite Hc.
  - change (Js.trimEnd (String c (String c' r)))
      with (match Js.trimEnd (String c' r) with
            | EmptyString => if Js.isSpace c then EmptyString else String c EmptyString
            | r' => String c r'
            end).
    now rewrite IH.
Qed.

(** A trimmed string does not start with white space. *)
Lemma trimStart_head s :
  Js.trimStart s = "" \/ exists c r, Js.trimStart s = String c r /\ Js.isSpace c = false.
Proof.
  induction s as [|c s IH]; simpl; [now left|].
  destruct (Js.isSpace c) eqn:Hc; [exact IH|]. right. eauto.
Qed.

Lemma trimEnd_head c r :
  Js.isSpace c = false -> exists r', Js.trimEnd (String c r) = String c r'.
Proof.
  intros Hc. simpl. destruct (Js.trimEnd r); rewrite ?Hc; eauto.
Qed.

Lemma trimStart_trim s : Js.trimStart (Js.trim s) = Js.trim s.
Proof.
  unfold Js.trim. destruct (trimStart_head s) as [-> | (c & r & -> & Hc)];
    [reflexivity|].
  destruct (trimEnd_head c r Hc) as [r' ->]. simpl. now rewrite Hc.
Qed.

Lemma trim_idem s : Js.trim (Js.trim s) = Js.trim s.
Proof.
  unfold Js.trim at 1. rewrite trimStart_trim.
  unfold Js.trim. apply trimEnd_idem.
Qed.

(** The address register stores is in normal form. *)
Lemma normalise_idem m :
  let e := Js.toLowerCase (Js.toLowerCase (Js.trim m)) in
  Js.toLowerCase (Js.trim e) = e.
Proof.
  simpl. rewrite !toLowerCase_idem.
  now rewrite <- trim_lower, toLowerCase_idem, trim_idem.
Qed.

(** ** Registration, then login *)

Section RegisterLogin.
Context {B : Bcrypt}.

(** Every way a registration can end: a failure that leaves the state as it
    was, or the insert of one document and the answer 201 that names it. *)
Lemma register_cases env req w :
  (res_success (fst (route (AuthV2.register env req) w)) = false
   /\ res_status (fst (route (AuthV2.register env req) w)) <> 201
   /\ snd (route (AuthV2.register env req) w) = w)
  \/ exists name mail pass,
       body_fullName req = Js.JStr name /\ body_email req = Js.JStr mail
       /\ body_password req = Js.JStr pass
       /\ (Js.length (Js.trim name) <? 2) = false
       /\ AuthV2.registerRefuses (Js.JStr pass) = false
       /\ list_find (fun u => byEmail (Js.toLowerCase (Js.trim mail)) u = true) (db w) = None
       /\ validDoc (mkUser (Js.trim (Js.trim name))
                     (Js.toLowerCase (Js.toLowerCase (Js.trim mail))) pass None None)
       /\ route (AuthV2.register env req) w =
            (mkResponse 201 true "User registered successfully"
               (Some (length (db w), Js.toLowerCase (Js.toLowerCase (Js.trim mail)))),
             mkWorld (db w ++ [registered env name mail pass]) (outbox w)).
Proof.
  unfold AuthV2.register, AuthV2.nameRefused. run.
  destruct (body_fullName req) as [| |b|n|name|]; simpl;
    try (left; repeat split; discriminate);
    try (destruct b; left; repeat split; discriminate);
    try (destruct (n =? 0); left; repeat split; discriminate).
  destruct (String.eqb name ""); simpl; [left; repeat split; discriminate|].
  destruct (Js.length (Js.trim name) <? 2) eqn:Hname; simpl;
    [left; repeat split; discriminate|].
  destruct (body_password req) as [| |b|n|pass|]; simpl;
    try (left; repeat split; discriminate).
  destruct (_ || _)%bool eqn:Hpol; simpl; [left; repeat split; discriminate|].
  destruct (body_email req) as [| |b|n|mail|]; simpl;
    try (left; repeat split; discriminate).
  unfold findOne, freshId.
  destruct (list_find _ (db w)) as [[i u]|] eqn:Hfind; simpl;
    [left; repeat split; discriminate|].
  unfold save, newUser, preSave. simpl.
  destruct (validate _) as [e|] eqn:Hval; simpl.
  { left. apply validate_error in Hval as [msgs ->]. repeat split; discriminate. }
  apply validate_inv in Hval.
  destruct (emailTaken _ _); simpl; [left; repeat split; discriminate|].
  right. exists name, mail, pass. destruct Hval as (H1 & H2 & H3).
  repeat split; try reflexivity; assumption.
Qed.

(** Register writes all or nothing, and sends no mail: it answers 201 with
    [success: true] and has appended exactly the one document the answer
    names, or it answers [success: false] and the state is untouched. *)
Theorem register_all_or_nothing env req w :
  let r := route (AuthV2.register env req) w in
  outbox (snd r) = outbox w
  /\ ((res_status (fst r) = 201 /\ res_success (fst r) = true
       /\ exists u, db (snd r) = (db w ++ [u])%list
                    /\ res_user (fst r) = Some (length (db w), email u)
                    /\ resetPasswordToken u = None /\ resetPasswordExpire u = None)
      \/ (res_status (fst r) <> 201 /\ res_success (fst r) = false /\ snd r = w)).
Proof.
  intros r. subst r.
  destruct (register_cases env req w)
    as [(Hs & Hn & Hw) | (name & mail & pass & _ & _ & _ & _ & _ & _ & _ & Heq)].
  - rewrite Hw. split; [reflexivity|]. right. auto.
  - rewrite Heq. simpl. split; [reflexivity|]. left.
    repeat split. eexists. repeat split.
Qed.

Context {L : BcryptLaws B} {I : BcryptIdeal B}.


End RegisterLogin.


(** ** Responses and forwarded errors *)

Ltac own_response :=
  solve [ unfold handlerOutcome, wellFormedResponse; simpl;
          repeat split; try discriminate; auto 6;
          try (intros [H | H]; discriminate H) ].

Ltac plain_error :=
  solve [ unfold handlerOutcome, plainError; simpl; auto ].

Section Outcomes.
Context {B : Bcrypt}.

Lemma save_outcome env d w (k : Document -> Async Response) :
  (forall d' w', handlerOutcome (k d' w')) ->
  handlerOutcome (bind (save env d) k w).
Proof.
  intros Hk. unfold bind, save.
  destruct (validate d) as [e|] eqn:Hval.
  { apply validate_error in Hval as [msgs ->]. plain_error. }
  destruct (isNew (preSave env d)); [destruct (emailTaken _ _)|];
    try apply Hk. plain_error.
Qed.

Lemma sendResetEmail_outcome env to token w (r : Response) :
  handlerOutcome (ret r w) ->
  handlerOutcome (bind (sendResetEmail env to token) (fun _ => ret r) w).
Proof.
  intros Hr. unfold bind, sendResetEmail.
  destruct (smtpConfigured env), (sendMailOk env); simpl;
    try exact Hr; plain_error.
Qed.

Lemma forgot_v1_outcome env req w : handlerOutcome (AuthV1.forgotPassword env req w).
Proof.
  unfold AuthV1.forgotPassword.
  destruct (body_email req) as [| |b|n|mail|]; try own_response.
  destruct (negb _); [own_response|].
  unfold bind at 1, findOne.
  destruct (list_find _ (db w)) as [[i u]|]; [|own_response].
  apply save_outcome. intros d' w'.
  apply sendResetEmail_outcome. own_response.
Qed.

Lemma forgot_v2_outcome env req w : handlerOutcome (AuthV2.forgotPassword env req w).
Proof.
  unfold AuthV2.forgotPassword.
  destruct (body_email req) as [| |b|n|mail|]; try own_response.
  destruct (negb _); [own_response|].
  unfold bind at 1, findOne.
  destruct (list_find _ (db w)) as [[i u]|]; [|own_response].
  apply save_outcome. intros d' w'.
  apply sendResetEmail_outcome. own_response.
Qed.

Lemma validate_v1_outcome env req w :
  handlerOutcome (AuthV1.validateResetToken env req w).
Proof.
  unfold AuthV1.validateResetToken.
  destruct (String.eqb _ ""); [own_response|].
  unfold bind, findOne.
  destruct (list_find _ (db w)) as [[i u]|]; own_response.
Qed.

Lemma validate_v2_outcome env req w :
  handlerOutcome (AuthV2.validateResetToken env req w).
Proof.
  unfold AuthV2.validateResetToken, bind, findOne.
  destruct (list_find _ (db w)) as [[i u]|]; own_response.
Qed.

Lemma reset_v1_outcome env req w : handlerOutcome (AuthV1.resetPassword env req w).
Proof.
  unfold AuthV1.resetPassword.
  destruct (String.eqb _ ""); [own_response|].
  destruct (body_password req) as [| |b|n|p|]; try own_response.
  destruct (AuthV1.resetPasswordRefuses _); [own_response|].
  unfold bind at 1, findOne.
  destruct (list_find _ (db w)) as [[i u]|]; [|own_response].
  apply save_outcome. intros d' w'. own_response.
Qed.

Lemma reset_v2_outcome env req w : handlerOutcome (AuthV2.resetPassword env req w).
Proof.
  unfold AuthV2.resetPassword.
  destruct (body_password req) as [| |b|n|p|]; try own_response.
  destruct (AuthV2.resetPasswordRefuses _); [own_response|].
  unfold bind at 1, findOne.
  destruct (list_find _ (db w)) as [[i u]|]; [|own_response].
  apply save_outcome. intros d' w'. own_response.
Qed.

Lemma login_outcome env req w : handlerOutcome (AuthV2.login env req w).
Proof.
  unfold AuthV2.login.
  destruct (_ || _)%bool; [own_response|].
  unfold bind at 1, theString.
  destruct (body_email req) as [| |b|n|mail|]; try plain_error.
  unfold ret at 1, bind at 1, findOne.
  destruct (list_find _ (db w)) as [[i u]|]; [|own_response].
  unfold bind, comparePassword.
  destruct (body_password req) as [| |b|n|p|]; try plain_error.
  unfold ret at 1. destruct (negb _); own_response.
Qed.

Lemma register_outcome env req w : handlerOutcome (AuthV2.register env req w).
Proof.
  unfold AuthV2.register, AuthV2.nameRefused.
  unfold bind at 1.
  destruct (body_fullName req) as [| |b|n|name|]; simpl;
    try own_response;
    try (destruct b; simpl; first [own_response | plain_error]);
    try (destruct (n =? 0); simpl; first [own_response | plain_error]);
    try plain_error.
  destruct (String.eqb name ""); simpl; [own_response|].
  unfold bind at 1, ret at 1, ret at 1.
  destruct (Js.length (Js.trim name) <? 2); [own_response|].
  destruct (AuthV2.registerRefuses _); [own_response|].
  destruct (body_password req) as [| |b|n|pass|]; try own_response.
  unfold bind at 1, ret at 1. unfold bind at 1, theString.
  destruct (body_email req) as [| |b|n|mail|]; try plain_error.
  unfold ret at 1, bind at 1, findOne.
  destruct (list_find _ (db w)) as [[i u]|]; [own_response|].
  unfold bind at 1, freshId.
  apply save_outcome. intros d' w'. own_response.
Qed.

Lemma handler_outcome rev ep h env req w :
  routerOf rev ep = Some h -> handlerOutcome (h env req w).
Proof.
  destruct rev, ep; simpl; intros [= <-];
    auto using forgot_v1_outcome, forgot_v2_outcome, validate_v1_outcome,
      validate_v2_outcome, reset_v1_outcome, reset_v2_outcome,
      login_outcome, register_outcome.
Qed.

End Outcomes.

(** Every answer of every route, of either revision, has status 200, 201,
    400, 404 or 500, and [success] is true exactly on 200 and 201.  A
    handler never sends 500 itself: 500 is the answer exactly when the
    handler forwarded an error that is not a duplicate key. *)
Theorem responses_well_formed {B : Bcrypt} (rev : Revision) (ep : Endpoint)
    (h : Env -> Request -> Async Response) (env : Env) (req : Request) (w : World) :
  routerOf rev ep = Some h ->
  let r := fst (route (h env req) w) in
  (res_status r = 200 \/ res_status r = 201 \/ res_status r = 400
   \/ res_status r = 404 \/ res_status r = 500)
  /\ (res_success r = true <-> res_status r = 200 \/ res_status r = 201)
  /\ (res_status r = 500 <->
      exists e, fst (h env req w) = Throw e /\ err_code e <> Some 11000).
Proof.
  intros Hroute r. subst r.
  pose proof (handler_outcome rev ep h env req w Hroute) as Hout.
  unfold handlerOutcome in Hout. unfold route.
  destruct (h env req w) as [[r | e] w']; simpl in *.
  - destruct Hout as [[Hst Hsucc] H500]. repeat split; try tauto.
    intros (e & [=] & _).
  - destruct Hout as (Hs & _ & [Hc | Hc]); unfold globalErrorHandler;
      rewrite Hc, ?Hs; simpl.
    + repeat split; auto 6; try discriminate.
      * intros [H | H]; discriminate H.
      * intros _. exists e. split; [reflexivity|]. rewrite Hc. discriminate.
    + repeat split; auto 6; try discriminate.
      * intros [H | H]; discriminate H.
      * intros (e' & [= <-] & Hne). contradiction.
Qed.

Lemma responses_well_formed_witness :
  let r := fst (route (AuthV2.register (B := symbolic_bcrypt) Scenario.env0
                         (post (Js.JStr "Jane Doe") Js.JUndefined (Js.JStr "Str0ng!Pass")))
                      Scenario.empty) in
  res_status r = 500 /\ res_success r = false
  /\ ((res_status r = 200 \/ res_status r = 201 \/ res_status r = 400
       \/ res_status r = 404 \/ res_status r = 500)
      /\ (res_success r = true <-> res_status r = 200 \/ res_status r = 201)
      /\ (res_status r = 500 <->
          exists e, fst (AuthV2.register (B := symbolic_bcrypt) Scenario.env0
                           (post (Js.JStr "Jane Doe") Js.JUndefined (Js.JStr "Str0ng!Pass"))
                           Scenario.empty) = Throw e
                    /\ err_code e <> Some 11000)).
Proof.
  split; [reflexivity|]. split; [reflexivity|].
  exact (responses_well_formed (B := symbolic_bcrypt) V2 Register AuthV2.register
           Scenario.env0
           (post (Js.JStr "Jane Doe") Js.JUndefined (Js.JStr "Str0ng!Pass"))
           Scenario.empty eq_refl).
Defined.

(** The middleware of errorHandler.js and the error handler that server.js
    installs answer every error that a route forwards in the same way: with
    either of them wired in, every route gives the same response and leaves
    the same state. *)
Theorem error_handlers_agree {B : Bcrypt} (rev : Revision) (ep : Endpoint)
    (h : Env -> Request -> Async Response) (env : Env) (req : Request) (w : World) :
  routerOf rev ep = Some h ->
  routeWith errorHandler (h env req) w = route (h env req) w.
Proof.
  intros Hroute.
  pose proof (handler_outcome rev ep h env req w Hroute) as Hout.
  unfold handlerOutcome in Hout. unfold route, routeWith.
  destruct (h env req w) as [[r | e] w']; simpl in *; [reflexivity|].
  destruct Hout as (Hs & Hsc & _).
  unfold errorHandler, globalErrorHandler. now rewrite Hs, Hsc.
Qed.

Lemma error_handlers_agree_witness :
  routeWith errorHandler
    (AuthV2.forgotPassword (B := symbolic_bcrypt)
       (mkEnv 1000 "ab" "s" "s" false true)
       (post Js.JUndefined (Js.JStr "jane@test.com") Js.JUndefined))
    Scenario.registered
  = (json 500 false "SMTP configuration and FRONTEND_URL must be set in environment variables",
     mkWorld [mkUser "Jane Doe" "jane@test.com" (password Scenario.jane)
                     (Some "ab") (Some 3601000)] []).
Proof.
  rewrite (error_handlers_agree (B := symbolic_bcrypt) V2 ForgotPassword
             AuthV2.forgotPassword (mkEnv 1000 "ab" "s" "s" false true)
             (post Js.JUndefined (Js.JStr "jane@test.com") Js.JUndefined)
             Scenario.registered eq_refl).
  reflexivity.
Defined.

(** ** What each route writes *)

Section Writes.
Context {B : Bcrypt}.

(** Every way a forgot-password request can end, in either revision: the
    state is as it was; or the token is saved and the mail sent; or the
    token is saved and the mail failed. *)
Lemma forgot_cases env req w (r : Response * World) :
  r = route (AuthV1.forgotPassword env req) w
  \/ r = route (AuthV2.forgotPassword env req) w ->
  (snd r = w /\ res_status (fst r) <> 500)
  \/ exists mail i u,
       body_email req = Js.JStr mail /\ mail <> ""
       /\ list_find (fun u => byEmail (Js.toLowerCase mail) u = true) (db w) = Some (i, u)
       /\ ((validDoc u
            /\ ((smtpConfigured env = true /\ sendMailOk env = true
                 /\ r = (json 200 true "Password reset email sent if account exists",
                         mkWorld (<[i := issued env u]> (db w))
                                 (outbox w ++ [(email u, randomBytesHex env)])))
                \/ ((smtpConfigured env = false \/ sendMailOk env = false)
                    /\ res_status (fst r) = 500 /\ res_success (fst r) = false
                    /\ snd r = mkWorld (<[i := issued env u]> (db w)) (outbox w))))
           \/ (~ validDoc u /\ res_status (fst r) = 500 /\ snd r = w)).
Proof.
  intros Hr.
  assert (Hcommon : forall notFound : Response,
    res_status notFound <> 500 ->
    r = route (match body_email req with
               | Js.JStr mail =>
                   if negb (Js.truthy (body_email req))
                   then ret (json 400 false "Valid email is required")
                   else bind (findOne (byEmail (Js.toLowerCase mail)))
                     (fun found => match found with
                      | None => ret notFound
                      | Some user =>
                          bind (save env (setReset (Some (randomBytesHex env))
                                            (Some (now env + hour)) user))
                            (fun user => bind
                               (sendResetEmail env (email (fields user)) (randomBytesHex env))
                               (fun _ => ret (json 200 true
                                  "Password reset email sent if account exists")))
                      end)
               | _ => ret (json 400 false "Valid email is required")
               end) w ->
    (snd r = w /\ res_status (fst r) <> 500)
    \/ exists mail i u,
         body_email req = Js.JStr mail /\ mail <> ""
         /\ list_find (fun u => byEmail (Js.toLowerCase mail) u = true) (db w) = Some (i, u)
         /\ ((validDoc u
              /\ ((smtpConfigured env = true /\ sendMailOk env = true
                   /\ r = (json 200 true "Password reset email sent if account exists",
                           mkWorld (<[i := issued env u]> (db w))
                                   (outbox w ++ [(email u, randomBytesHex env)])))
                  \/ ((smtpConfigured env = false \/ sendMailOk env = false)
                      /\ res_status (fst r) = 500 /\ res_success (fst r) = false
                      /\ snd r = mkWorld (<[i := issued env u]> (db w)) (outbox w))))
             \/ (~ validDoc u /\ res_status (fst r) = 500 /\ snd r = w))).
  { clear Hr. intros notFound Hnf ->. run.
    destruct (body_email req) as [| |b|n|mail|]; simpl;
      try (left; split; [reflexivity | discriminate]).
    destruct (String.eqb_spec mail "") as [|Hne]; simpl;
      [left; split; [reflexivity | discriminate]|].
    unfold findOne.
    destruct (list_find _ (db w)) as [[i u]|] eqn:Hfind; simpl;
      [|left; split; [reflexivity | assumption]].
    right. exists mail, i, u. split; [reflexivity|]. split; [assumption|].
    split; [exact Hfind|].
    unfold save, setReset, preSave; simpl.
    destruct (validate _) as [e|] eqn:Hval; simpl.
    - right. split.
      + intros Hv. rewrite validate_ok in Hval; [discriminate | exact Hv].
      + apply validate_error in Hval as [msgs ->]. split; reflexivity.
    - apply validate_inv in Hval. change (validDoc u) in Hval.
      left. split; [assumption|]. unfold sendResetEmail.
      destruct (smtpConfigured env), (sendMailOk env); simpl;
        [left | right | right | right]; repeat split; auto. }
  destruct Hr as [Hr | Hr].
  - apply (Hcommon (json 404 false "No account found with that email"));
      [discriminate | exact Hr].
  - apply (Hcommon (json 200 true
             "If an account with that email exists, a reset link will be sent"));
      [discriminate | exact Hr].
Qed.

(** Every way a reset-password request can end, in either revision. *)
Lemma reset_cases env req w (r : Response * World) :
  r = route (AuthV1.resetPassword env req) w
  \/ r = route (AuthV2.resetPassword env req) w ->
  (snd r = w /\ res_success (fst r) = false)
  \/ exists p i u pw,
       body_password req = Js.JStr p
       /\ list_find (fun u => byValidResetToken (params_token req) (now env) u = true) (db w)
          = Some (i, u)
       /\ (pw = storedV1 env p u \/ pw = storedV2 env p u)
       /\ r = (json 200 true "Password has been reset successfully",
               mkWorld (<[i := mkUser (fullName u) (email u) pw None None]> (db w))
                       (outbox w)).
Proof.
  intros Hr.
  destruct (res_success (fst r)) eqn:Hsucc.
  - right. destruct Hr as [-> | ->].
    + destruct (reset_v1_success_inv env req w Hsucc) as (p & i & u & Hp & Hfind & Heq).
      exists p, i, u, (storedV1 env p u). auto.
    + destruct (reset_v2_success_inv env req w Hsucc) as (p & i & u & Hp & Hfind & Heq).
      exists p, i, u, (storedV2 env p u). auto.
  - left. split; [|reflexivity].
    destruct Hr as [-> | ->]; revert Hsucc.
    + unfold AuthV1.resetPassword. run.
      destruct (String.eqb _ ""); [reflexivity|].
      destruct (body_password req) as [| |b|n|p|]; simpl; try reflexivity.
      destruct (_ || _)%bool; simpl; [reflexivity|].
      unfold findOne.
      destruct (list_find _ (db w)) as [[i u]|]; simpl; [|reflexivity].
      unfold save. destruct (validate _); simpl; [reflexivity|].
      unfold setReset, setPassword, preSave; simpl.
      destruct (String.eqb _ (password u)); simpl; discriminate.
    + unfold AuthV2.resetPassword. run.
      destruct (body_password req) as [| |b|n|p|]; simpl; try reflexivity.
      destruct (_ || _)%bool; simpl; [reflexivity|].
      unfold findOne.
      destruct (list_find _ (db w)) as [[i u]|]; simpl; [|reflexivity].
      unfold save. destruct (validate _); simpl; [reflexivity|].
      unfold setReset, setPassword, preSave; simpl.
      destruct (String.eqb _ (password u)); simpl; discriminate.
Qed.

End Writes.

(** Login and validate-reset-token (in both revisions) only read: whatever
    the request and whatever they answer, the collection and the outbox
    are as before. *)
Theorem read_only_routes {B : Bcrypt} (env : Env) (req : Request) (w : World) :
  snd (route (AuthV2.login env req) w) = w
  /\ snd (route (AuthV1.validateResetToken env req) w) = w
  /\ snd (route (AuthV2.validateResetToken env req) w) = w.
Proof.
  split; [apply login_unchanged|].
  split; [apply validate_v1_unchanged | apply validate_v2_unchanged].
Qed.

Section Frames.
Context {B : Bcrypt}.

Lemma find_credentials key (users : list UserDoc) :
  prod_map id credentials <$> list_find (fun u => byEmail key u = true) users
  = list_find (fun c : string * string => String.eqb (fst c) key = true)
              (credentials <$> users).
Proof.
  rewrite list_find_fmap. reflexivity.
Qed.

(** The answer of login depends on the collection only through the
    addresses and passwords of its documents, in their order. *)
Lemma login_credentials env req (w1 w2 : World) :
  credentials <$> db w1 = credentials <$> db w2 ->
  fst (route (AuthV2.login env req) w1) = fst (route (AuthV2.login env req) w2).
Proof.
  intros Hcred. unfold AuthV2.login. run.
  destruct (_ || _)%bool; [reflexivity|].
  destruct (body_email req) as [| |b|n|mail|]; try reflexivity. simpl.
  unfold findOne.
  pose proof (find_credentials (Js.toLowerCase (Js.trim mail)) (db w1)) as H1.
  rewrite Hcred, <- find_credentials in H1.
  destruct (list_find _ (db w1)) as [[i u1]|], (list_find _ (db w2)) as [[j u2]|];
    simpl in H1; try discriminate; [|reflexivity].
  injection H1 as -> He Hp. simpl.
  unfold comparePassword. simpl. rewrite Hp.
  destruct (body_password req); simpl; try reflexivity.
  destruct (bcrypt_compare _ _); simpl; [|reflexivity]. now rewrite He.
Qed.

Lemma issued_credentials env (users : list UserDoc) i u :
  users !! i = Some u ->
  credentials <$> <[i := issued env u]> users = credentials <$> users.
Proof.
  intros Hi. rewrite list_fmap_insert. apply list_insert_id.
  rewrite list_lookup_fmap, Hi. reflexivity.
Qed.

(** A forgot-password request, whatever comes of it, leaves every login as
    it was: the same request to login gets the same answer before and
    after.  Asking for a reset does not disable the current password. *)
Theorem forgot_password_keeps_login env req w (r : Response * World) env' req' :
  r = route (AuthV1.forgotPassword env req) w
  \/ r = route (AuthV2.forgotPassword env req) w ->
  fst (route (AuthV2.login env' req') (snd r))
  = fst (route (AuthV2.login env' req') w).
Proof.
  intros Hr. apply login_credentials.
  destruct (forgot_cases env req w r Hr)
    as [[-> _] | (mail & i & u & _ & _ & Hfind & Hcase)]; [reflexivity|].
  apply list_find_Some in Hfind as (Hi & _).
  destruct Hcase as [(_ & [(_ & _ & ->) | (_ & _ & _ & ->)]) | (_ & _ & ->)];
    simpl; auto using issued_credentials.
Qed.

(** A reset mail goes out only for a token that was saved: a
    forgot-password request sends no mail, or exactly one, addressed to the
    stored address of the document it has just written the token and the
    expiry to, and carrying that token. *)
Theorem forgot_mail_matches_store env req w (r : Response * World) :
  r = route (AuthV1.forgotPassword env req) w
  \/ r = route (AuthV2.forgotPassword env req) w ->
  outbox (snd r) = outbox w
  \/ exists i u,
       db w !! i = Some u
       /\ db (snd r) !! i = Some (issued env u)
       /\ outbox (snd r) = (outbox w ++ [(email u, randomBytesHex env)])%list
       /\ fst r = json 200 true "Password reset email sent if account exists".
Proof.
  intros Hr.
  destruct (forgot_cases env req w r Hr)
    as [[-> _] | (mail & i & u & _ & _ & Hfind & Hcase)]; [now left|].
  apply list_find_Some in Hfind as (Hi & _).
  destruct Hcase as [(_ & [(_ & _ & ->) | (_ & _ & _ & ->)]) | (_ & _ & ->)];
    simpl; auto.
  right. exists i, u. repeat split; auto.
  apply list_lookup_insert_eq. exact (lookup_lt_Some _ _ _ Hi).
Qed.

(** When the user exists and the mail cannot be sent (configuration
    missing, or the transport failing), forgot-password answers 500 with
    the mailer's message, and the token and expiry it saved before sending
    stay saved. *)
Theorem forgot_mail_failure env req w (r : Response * World) mail i u :
  r = route (AuthV1.forgotPassword env req) w
  \/ r = route (AuthV2.forgotPassword env req) w ->
  body_email req = Js.JStr mail -> mail <> "" ->
  list_find (fun u => byEmail (Js.toLowerCase mail) u = true) (db w) = Some (i, u) ->
  validDoc u ->
  smtpConfigured env = false \/ sendMailOk env = false ->
  fst r = json 500 false
            (if smtpConfigured env then "Failed to send password reset email"
             else "SMTP configuration and FRONTEND_URL must be set in environment variables")
  /\ snd r = mkWorld (<[i := issued env u]> (db w)) (outbox w).
Proof.
  intros Hr Hmail Hne Hfind Hv Hfail. apply String.eqb_neq in Hne.
  destruct Hr as [-> | ->].
  - unfold AuthV1.forgotPassword, route, bind. rewrite Hmail. simpl. rewrite Hne. simpl.
    rewrite (findOne_found _ _ _ _ Hfind).
    rewrite save_update; [| reflexivity | apply validate_ok; exact Hv].
    unfold sendResetEmail.
    destruct (smtpConfigured env), (sendMailOk env), Hfail;
      try discriminate; split; reflexivity.
  - unfold AuthV2.forgotPassword, route, bind. rewrite Hmail. simpl. rewrite Hne. simpl.
    rewrite (findOne_found _ _ _ _ Hfind).
    rewrite save_update; [| reflexivity | apply validate_ok; exact Hv].
    unfold sendResetEmail.
    destruct (smtpConfigured env), (sendMailOk env), Hfail;
      try discriminate; split; reflexivity.
Qed.

End Frames.

Lemma forgot_password_keeps_login_witness :
  fst (route (AuthV2.login (B := symbolic_bcrypt) Scenario.env1
                (post Js.JUndefined (Js.JStr "Jane@Test.com") (Js.JStr "Str0ng!Pass")))
             Scenario.asked)
  = mkResponse 200 true "Login successful" (Some (0%nat, "jane@test.com")).
Proof.
  change Scenario.asked with
    (snd (route (AuthV2.forgotPassword (B := symbolic_bcrypt) Scenario.env0
                   (post Js.JUndefined (Js.JStr "jane@test.com") Js.JUndefined))
                Scenario.registered)).
  rewrite (forgot_password_keeps_login (B := symbolic_bcrypt) Scenario.env0
             (post Js.JUndefined (Js.JStr "jane@test.com") Js.JUndefined)
             Scenario.registered _ Scenario.env1
             (post Js.JUndefined (Js.JStr "Jane@Test.com") (Js.JStr "Str0ng!Pass"))
             (or_intror eq_refl)).
  reflexivity.
Defined.

Lemma forgot_mail_matches_store_witness :
  let r := route (AuthV2.forgotPassword (B := symbolic_bcrypt) Scenario.env0
                    (post Js.JUndefined (Js.JStr "jane@test.com") Js.JUndefined))
                 Scenario.registered in
  snd r = Scenario.asked
  /\ (outbox (snd r) = outbox Scenario.registered
      \/ exists i u,
           db Scenario.registered !! i = Some u
           /\ db (snd r) !! i = Some (issued Scenario.env0 u)
           /\ outbox (snd r)
              = (outbox Scenario.registered
                 ++ [(email u, randomBytesHex Scenario.env0)])%list
           /\ fst r = json 200 true "Password reset email sent if account exists").
Proof.
  split; [reflexivity|].
  exact (forgot_mail_matches_store (B := symbolic_bcrypt) Scenario.env0
           (post Js.JUndefined (Js.JStr "jane@test.com") Js.JUndefined)
           Scenario.registered _ (or_intror eq_refl)).
Defined.

Lemma forgot_mail_failure_witness :
  route (AuthV2.forgotPassword (B := symbolic_bcrypt) Outage.env
           (post Js.JUndefined (Js.JStr "jane@test.com") Js.JUndefined))
        Scenario.registered
  = (json 500 false "Failed to send password reset email", Outage.asked).
Proof.
  destruct (forgot_mail_failure (B := symbolic_bcrypt) Outage.env
              (post Js.JUndefined (Js.JStr "jane@test.com") Js.JUndefined)
              Scenario.registered _ "jane@test.com" 0%nat Scenario.jane
              (or_intror eq_refl) eq_refl) as [Hfst Hsnd].
  - discriminate.
  - reflexivity.
  - repeat split; discriminate.
  - right. reflexivity.
  - apply injective_projections; [exact Hfst | exact Hsnd].
Defined.

(** ** What no route does *)

Section Identities.
Context {B : Bcrypt}.

Lemma insert_keeps (users : list UserDoc) i u x j v :
  users !! i = Some u -> users !! j = Some v ->
  fullName x = fullName u -> email x = email u ->
  exists v', <[i := x]> users !! j = Some v'
             /\ fullName v' = fullName v /\ email v' = email v
             /\ (password x = password u -> password v' = password v).
Proof.
  intros Hi Hj Hn He. destruct (decide (i = j)) as [<- | Hne].
  - exists x. rewrite list_lookup_insert_eq by exact (lookup_lt_Some _ _ _ Hi).
    rewrite Hi in Hj. injection Hj as <-. auto.
  - exists v. rewrite list_lookup_insert_ne by exact Hne. auto.
Qed.

(** No route removes a document, renames a user or changes an address;
    only reset-password changes a password; only register adds a document;
    only forgot-password sends mail. *)
Theorem routes_keep_identities (rev : Revision) (ep : Endpoint)
    (h : Env -> Request -> Async Response) (env : Env) (req : Request) (w : World) :
  routerOf rev ep = Some h ->
  let w' := snd (route (h env req) w) in
  (forall i u, db w !! i = Some u ->
     exists u', db w' !! i = Some u'
                /\ fullName u' = fullName u /\ email u' = email u
                /\ (ep <> ResetPassword -> password u' = password u))
  /\ (ep <> Register -> length (db w') = length (db w))
  /\ (ep <> ForgotPassword -> outbox w' = outbox w).
Proof.
  intros Hroute w'.
  assert (Hsame : w' = w ->
            (forall i u, db w !! i = Some u ->
               exists u', db w' !! i = Some u'
                          /\ fullName u' = fullName u /\ email u' = email u
                          /\ (ep <> ResetPassword -> password u' = password u))
            /\ (ep <> Register -> length (db w') = length (db w))
            /\ (ep <> ForgotPassword -> outbox w' = outbox w)).
  { intros ->. repeat split; eauto. }
  assert (Hforgot : forall r,
            r = route (AuthV1.forgotPassword env req) w
            \/ r = route (AuthV2.forgotPassword env req) w ->
            (forall i u, db w !! i = Some u ->
               exists u', db (snd r) !! i = Some u'
                          /\ fullName u' = fullName u /\ email u' = email u
                          /\ password u' = password u)
            /\ length (db (snd r)) = length (db w)).
  { intros r Hr.
    destruct (forgot_cases env req w r Hr)
      as [[-> _] | (mail & i & u & _ & _ & Hfind & Hcase)];
      [split; [eauto 6 | reflexivity]|].
    apply list_find_Some in Hfind as (Hi & _).
    assert (Hdb : db (snd r) = db w \/ db (snd r) = <[i := issued env u]> (db w)).
    { destruct Hcase as [(_ & [(_ & _ & ->) | (_ & _ & _ & ->)]) | (_ & _ & ->)];
        simpl; auto. }
    destruct Hdb as [-> | ->]; [split; [eauto 6 | reflexivity]|].
    split; [|apply length_insert].
    intros j v Hj.
    destruct (insert_keeps (db w) i u (issued env u) j v Hi Hj eq_refl eq_refl)
      as (v' & ? & ? & ? & Hp). exists v'. auto. }
  assert (Hreset : forall r,
            r = route (AuthV1.resetPassword env req) w
            \/ r = route (AuthV2.resetPassword env req) w ->
            (forall i u, db w !! i = Some u ->
               exists u', db (snd r) !! i = Some u'
                          /\ fullName u' = fullName u /\ email u' = email u)
            /\ length (db (snd r)) = length (db w)
            /\ outbox (snd r) = outbox w).
  { intros r Hr.
    destruct (reset_cases env req w r Hr)
      as [[-> _] | (p & i & u & pw & _ & Hfind & _ & ->)];
      [repeat split; eauto|].
    apply list_find_Some in Hfind as (Hi & _). simpl.
    split; [|split; [apply length_insert | reflexivity]].
    intros j v Hj.
    destruct (insert_keeps (db w) i u (mkUser (fullName u) (email u) pw None None)
                j v Hi Hj eq_refl eq_refl) as (v' & ? & ? & ? & _).
    exists v'. auto. }
  destruct rev, ep; simpl in Hroute; try discriminate Hroute;
    injection Hroute as <-; subst w'.
  - destruct (Hforgot _ (or_introl eq_refl)) as [Hdocs Hlen].
    split; [|split; [intros _; exact Hlen | intros Hc; contradiction]].
    intros i u Hi. destruct (Hdocs i u Hi) as (u' & ? & ? & ? & ?). eauto 6.
  - apply Hsame, validate_v1_unchanged.
  - destruct (Hreset _ (or_introl eq_refl)) as (Hdocs & Hlen & Hout).
    split; [|split; [intros _; exact Hlen | intros _; exact Hout]].
    intros i u Hi. destruct (Hdocs i u Hi) as (u' & ? & ? & ?).
    exists u'. repeat split; auto. intros Hc. contradiction.
  - destruct (register_cases env req w)
      as [(_ & _ & Hw) | (name & mail & pass & _ & _ & _ & _ & _ & _ & _ & Heq)].
    + now apply Hsame.
    + rewrite Heq. simpl.
      split; [|split; [intros Hc; contradiction | reflexivity]].
      intros i u Hi. exists u. rewrite lookup_app_l by exact (lookup_lt_Some _ _ _ Hi).
      auto.
  - apply Hsame, login_unchanged.
  - destruct (Hforgot _ (or_intror eq_refl)) as [Hdocs Hlen].
    split; [|split; [intros _; exact Hlen | intros Hc; contradiction]].
    intros i u Hi. destruct (Hdocs i u Hi) as (u' & ? & ? & ? & ?). eauto 6.
  - apply Hsame, validate_v2_unchanged.
  - destruct (Hreset _ (or_intror eq_refl)) as (Hdocs & Hlen & Hout).
    split; [|split; [intros _; exact Hlen | intros _; exact Hout]].
    intros i u Hi. destruct (Hdocs i u Hi) as (u' & ? & ? & ?).
    exists u'. repeat split; auto. intros Hc. contradiction.
Qed.

End Identities.

Lemma routes_keep_identities_witness :
  let w' := snd (route (AuthV2.resetPassword (B := symbolic_bcrypt) Scenario.env1
                          (withToken (randomBytesHex Scenario.env0) (Js.JStr "NewStr0ng!1")))
                       Scenario.asked) in
  password <$> db w' = ["$2b$sym$NewStr0ng!1"]
  /\ length (db w') = length (db Scenario.asked)
  /\ outbox w' = outbox Scenario.asked.
Proof.
  split; [reflexivity|].
  destruct (routes_keep_identities (B := symbolic_bcrypt) V2 ResetPassword
              AuthV2.resetPassword Scenario.env1
              (withToken (randomBytesHex Scenario.env0) (Js.JStr "NewStr0ng!1"))
              Scenario.asked eq_refl) as (_ & Hlen & Hout).
  split; [apply Hlen | apply Hout]; discriminate.
Defined.

(** ** What every reachable collection looks like *)

Section Kept.
Context {B : Bcrypt}.

(** What one request of any route does to the collection. *)
Lemma db_effect rev ep h env req w :
  routerOf rev ep = Some h ->
  let users' := db (snd (route (h env req) w)) in
  users' = db w
  \/ (exists i u, db w !! i = Some u /\ users' = <[i := issued env u]> (db w))
  \/ (exists i u p pw,
        db w !! i = Some u /\ (pw = storedV1 env p u \/ pw = storedV2 env p u)
        /\ users' = <[i := mkUser (fullName u) (email u) pw None None]> (db w))
  \/ (exists name mail pass,
        (Js.length (Js.trim name) <? 2) = false
        /\ validDoc (mkUser (Js.trim (Js.trim name))
                       (Js.toLowerCase (Js.toLowerCase (Js.trim mail))) pass None None)
        /\ list_find (fun u => byEmail (Js.toLowerCase (Js.trim mail)) u = true) (db w) = None
        /\ users' = (db w ++ [registered env name mail pass])%list).
Proof.
  intros Hroute users'.
  assert (Hforgot : forall r,
            r = route (AuthV1.forgotPassword env req) w
            \/ r = route (AuthV2.forgotPassword env req) w ->
            db (snd r) = db w
            \/ exists i u, db w !! i = Some u /\ db (snd r) = <[i := issued env u]> (db w)).
  { intros r Hr.
    destruct (forgot_cases env req w r Hr)
      as [[-> _] | (mail & i & u & _ & _ & Hfind & Hcase)]; [now left|].
    apply list_find_Some in Hfind as (Hi & _).
    destruct Hcase as [(_ & [(_ & _ & ->) | (_ & _ & _ & ->)]) | (_ & _ & ->)];
      simpl; eauto. }
  assert (Hreset : forall r,
            r = route (AuthV1.resetPassword env req) w
            \/ r = route (AuthV2.resetPassword env req) w ->
            db (snd r) = db w
            \/ exists i u p pw,
                 db w !! i = Some u /\ (pw = storedV1 env p u \/ pw = storedV2 env p u)
                 /\ db (snd r) = <[i := mkUser (fullName u) (email u) pw None None]> (db w)).
  { intros r Hr.
    destruct (reset_cases env req w r Hr)
      as [[-> _] | (p & i & u & pw & _ & Hfind & Hpw & ->)]; [now left|].
    apply list_find_Some in Hfind as (Hi & _). right. exists i, u, p, pw. auto. }
  destruct rev, ep; simpl in Hroute; try discriminate Hroute;
    injection Hroute as <-; subst users'.
  - destruct (Hforgot _ (or_introl eq_refl)); auto.
  - rewrite validate_v1_unchanged. auto.
  - destruct (Hreset _ (or_introl eq_refl)); auto.
  - destruct (register_cases env req w)
      as [(_ & _ & Hw) | (name & mail & pass & _ & _ & _ & Hlen & _ & Hfind & Hv & Heq)].
    + rewrite Hw. auto.
    + rewrite Heq. simpl. right. right. right. exists name, mail, pass. auto.
  - rewrite login_unchanged. auto.
  - destruct (Hforgot _ (or_intror eq_refl)); auto.
  - rewrite validate_v2_unchanged. auto.
  - destruct (Hreset _ (or_intror eq_refl)); auto.
Qed.

(** A property of documents that depends on name, address and password only,
    that the stored password of either revision's reset keeps, and that the
    document of a registration has, holds throughout every reachable
    collection. *)
Lemma reachable_Forall (P : UserDoc -> Prop) :
  (forall env u, P u -> P (issued env u)) ->
  (forall env p u pw, P u -> pw = storedV1 env p u \/ pw = storedV2 env p u ->
     P (mkUser (fullName u) (email u) pw None None)) ->
  (forall env name mail pass,
     (Js.length (Js.trim name) <? 2) = false ->
     validDoc (mkUser (Js.trim (Js.trim name))
                 (Js.toLowerCase (Js.toLowerCase (Js.trim mail))) pass None None) ->
     P (registered env name mail pass)) ->
  forall w, reachable w -> Forall P (db w).
Proof.
  intros Hissue Hreset Hreg w Hreach.
  induction Hreach as [| w rev ep h env req _ IH Hroute _]; [constructor|].
  destruct (db_effect rev ep h env req w Hroute)
    as [-> | [(i & u & Hi & ->) | [(i & u & p & pw & Hi & Hpw & ->)
        | (name & mail & pass & Hlen & Hv & _ & ->)]]].
  - assumption.
  - apply Forall_insert; [assumption|].
    apply Hissue. rewrite Forall_lookup in IH. exact (IH _ _ Hi).
  - apply Forall_insert; [assumption|].
    apply (Hreset env p u pw); [|assumption].
    rewrite Forall_lookup in IH. exact (IH _ _ Hi).
  - apply Forall_app. split; [assumption|].
    constructor; [|constructor]. now apply Hreg.
Qed.

Lemma reachable_uniqueEmails w : reachable w -> uniqueEmails (db w).
Proof.
  induction 1 as [| w rev ep h env req _ IH Hroute _].
  - intros i j u v Hi. simpl in Hi. rewrite lookup_nil in Hi. discriminate.
  - eapply dbStep_emails; [|exact IH].
    apply (handler_step rev ep h env req w Hroute).
Qed.

(** In every reachable collection each user has a name that is trimmed and
    at least two characters long and an address that is not empty and is
    its own trimmed, lowercased form, and no two documents have the same
    address. *)
Theorem reachable_identities (w : World) :
  reachable w ->
  Forall (fun u => properName u /\ normalEmail u) (db w)
  /\ uniqueEmails (db w).
Proof.
  intros Hreach. split; [|now apply reachable_uniqueEmails].
  revert w Hreach. apply reachable_Forall.
  - intros env u H. exact H.
  - intros env p u pw H _. exact H.
  - intros env name mail pass Hlen (_ & He & _). split.
    + unfold properName, registered. simpl. rewrite !trim_idem.
      split; [reflexivity|]. apply Z.ltb_ge in Hlen. exact Hlen.
    + unfold normalEmail, registered. simpl. split; [|exact He].
      apply normalise_idem.
Qed.

(** In every reachable collection every stored password is an output of
    [bcrypt.hash]: no route stores what the user typed. *)
Theorem reachable_passwords_hashed (w : World) :
  reachable w -> Forall (fun u => isDigest (password u)) (db w).
Proof.
  revert w. apply reachable_Forall.
  - intros env u H. exact H.
  - intros env p u pw H [-> | ->]; simpl.
    + unfold storedV1. destruct (String.eqb _ _); [exact H|].
      unfold isDigest. eauto.
    + unfold storedV2. destruct (String.eqb _ _); [exact H|].
      unfold isDigest. eauto.
  - intros env name mail pass _ _. unfold isDigest, registered. simpl. eauto.
Qed.

End Kept.

Lemma reachable_identities_witness :
  Forall (fun u => properName u /\ normalEmail u) (db Scenario.asked)
  /\ uniqueEmails (db Scenario.asked).
Proof.
  exact (reachable_identities (B := symbolic_bcrypt) Scenario.asked scenario_reachable).
Defined.

Lemma reachable_passwords_hashed_witness :
  Forall (fun u => isDigest (B := symbolic_bcrypt) (password u)) (db Scenario.asked).
Proof.
  exact (reachable_passwords_hashed (B := symbolic_bcrypt) Scenario.asked
           scenario_reachable).
Defined.

(** ** Tokens over time *)

Section Tokens.
Context {B : Bcrypt}.

(** A new forgot-password request for a user overwrites the token of the
    earlier one: when tokens are unique among documents and the token drawn
    differs from the one the user held, the old token is refused from then
    on by validate-reset-token and by reset-password, whether or not the
    new mail could be sent. *)
Theorem new_token_replaces_old env req w (r : Response * World) mail i u old :
  r = route (AuthV1.forgotPassword env req) w
  \/ r = route (AuthV2.forgotPassword env req) w ->
  body_email req = Js.JStr mail -> mail <> "" ->
  list_find (fun u => byEmail (Js.toLowerCase mail) u = true) (db w) = Some (i, u) ->
  validDoc u ->
  uniqueTokens (db w) ->
  resetPasswordToken u = Some old -> old <> "" ->
  randomBytesHex env <> old ->
  forall env' req',
    params_token req' = old ->
    route (AuthV1.validateResetToken env' req') (snd r) =
      (json 400 false "Invalid or expired token", snd r)
    /\ route (AuthV2.validateResetToken env' req') (snd r) =
      (json 400 false "Invalid or expired token", snd r)
    /\ res_success (fst (route (AuthV1.resetPassword env' req') (snd r))) = false
    /\ snd (route (AuthV1.resetPassword env' req') (snd r)) = snd r
    /\ res_success (fst (route (AuthV2.resetPassword env' req') (snd r))) = false
    /\ snd (route (AuthV2.resetPassword env' req') (snd r)) = snd r.
Proof.
  intros Hr Hmail Hne Hfind Hv Huniq Hold Hnonempty Hfresh env' req' Htok.
  apply gone_token_rejected; [congruence|].
  rewrite (forgot_found_db env req w r mail i u Hr Hmail Hne Hfind Hv), Htok.
  apply list_find_Some in Hfind as (Hi & _).
  intros (v & e & Hin & Hvtok & _).
  apply list_elem_of_In, list_elem_of_lookup in Hin as [j Hj].
  apply list_lookup_insert_Some in Hj as [(_ & <- & _) | (Hneq & Hj)].
  - simpl in Hvtok. congruence.
  - apply Hneq. exact (Huniq _ _ _ _ _ Hi Hj Hold Hvtok).
Qed.

(** A token does not become valid by waiting: on the same collection, a
    token that validate-reset-token accepts at some time it accepts at
    every earlier time; so one refused now is refused ever after. *)
Theorem expired_stays_expired (env env' : Env) (req : Request) (w : World) :
  params_token req <> "" ->
  now env <= now env' ->
  fst (route (AuthV2.validateResetToken env' req) w) = json 200 true "Token is valid" ->
  route (AuthV2.validateResetToken env req) w = (json 200 true "Token is valid", w)
  /\ route (AuthV1.validateResetToken env req) w = (json 200 true "Token is valid", w).
Proof.
  intros Htok Hle Hlater.
  assert (Hholds : holdsValidToken (db w) (params_token req) (now env')).
  { apply find_token_iff.
    destruct (list_find _ (db w)) as [[i u]|] eqn:Hfind; [eauto|].
    rewrite (validate_v2_not_found env' req w Hfind) in Hlater. discriminate. }
  destruct Hholds as (u & e & Hin & Hut & Hue & Hlt).
  assert (Hearly : is_Some (list_find
            (fun u => byValidResetToken (params_token req) (now env) u = true) (db w))).
  { apply find_token_iff. exists u, e. repeat split; auto. lia. }
  destruct Hearly as [[i v] Hfind]. split.
  - eapply validate_v2_found; eassumption.
  - eapply validate_v1_found; eassumption.
Qed.

End Tokens.

Lemma new_token_replaces_old_witness :
  let r := route (AuthV2.forgotPassword (B := symbolic_bcrypt) Scenario.env1
                    (post Js.JUndefined (Js.JStr "jane@test.com") Js.JUndefined))
                 Scenario.asked in
  resetPasswordToken <$> db (snd r) = [Some (randomBytesHex Scenario.env1)]
  /\ route (AuthV2.validateResetToken Scenario.env1
              (withToken (randomBytesHex Scenario.env0) Js.JUndefined)) (snd r)
     = (json 400 false "Invalid or expired token", snd r).
Proof.
  split; [reflexivity|].
  refine (proj1 (proj2 (new_token_replaces_old (B := symbolic_bcrypt) Scenario.env1
            (post Js.JUndefined (Js.JStr "jane@test.com") Js.JUndefined)
            Scenario.asked _ "jane@test.com" 0%nat Scenario.janeAsked
            (randomBytesHex Scenario.env0)
            (or_intror eq_refl) eq_refl _ eq_refl _ _ eq_refl _ _
            Scenario.env1 (withToken (randomBytesHex Scenario.env0) Js.JUndefined)
            eq_refl))).
  - discriminate.
  - repeat split; discriminate.
  - intros [|[|a]] [|[|b]] x y t Ha Hb; simpl in Ha, Hb;
      try discriminate; reflexivity.
  - discriminate.
  - discriminate.
Defined.

Lemma expired_stays_expired_witness :
  route (AuthV2.validateResetToken Scenario.env0
           (withToken (randomBytesHex Scenario.env0) Js.JUndefined)) Scenario.asked
  = (json 200 true "Token is valid", Scenario.asked).
Proof.
  refine (proj1 (expired_stays_expired Scenario.env0 Scenario.env1
            (withToken (randomBytesHex Scenario.env0) Js.JUndefined)
            Scenario.asked _ _ eq_refl)).
  - discriminate.
  - discriminate.
Defined.

(** ** The two revisions side by side *)

Lemma validatePaths_long u :
  8 <= Js.length (password u) ->
  validatePaths u =
    ((if String.eqb (fullName u) "" then ["fullName: Name is required"] else [])
     ++ (if String.eqb (email u) "" then ["email: Path `email` is required."] else []))%list.
Proof.
  intros Hlen. unfold validatePaths.
  destruct (String.eqb_spec (password u) "") as [Hp | _].
  { apply long_nonempty in Hlen. contradiction. }
  destruct (Z.ltb_spec (Js.length (password u)) 8); [lia|].
  now rewrite !app_nil_r.
Qed.

Section Revisions.
Context {B : Bcrypt} {L : BcryptLaws B}.

(** The two revisions of the router answer alike, but for two things.  On a
    route parameter that is not empty: validate-reset-token is the same
    function in both; forgot-password leaves the same state in both and
    gives the same answer unless no document holds the address, which the
    first answers 404 and the second 200; reset-password gives the same
    answer in both and leaves states that differ in stored passwords at
    most. *)
Theorem revisions_agree (env : Env) (req : Request) (w : World) :
  params_token req <> "" ->
  route (AuthV1.validateResetToken env req) w
  = route (AuthV2.validateResetToken env req) w
  /\ snd (route (AuthV1.forgotPassword env req) w)
     = snd (route (AuthV2.forgotPassword env req) w)
  /\ (fst (route (AuthV1.forgotPassword env req) w)
      = fst (route (AuthV2.forgotPassword env req) w)
      \/ (fst (route (AuthV1.forgotPassword env req) w)
          = json 404 false "No account found with that email"
          /\ fst (route (AuthV2.forgotPassword env req) w)
             = json 200 true
                 "If an account with that email exists, a reset link will be sent"))
  /\ fst (route (AuthV1.resetPassword env req) w)
     = fst (route (AuthV2.resetPassword env req) w)
  /\ besidesPassword <$> db (snd (route (AuthV1.resetPassword env req) w))
     = besidesPassword <$> db (snd (route (AuthV2.resetPassword env req) w))
  /\ outbox (snd (route (AuthV1.resetPassword env req) w))
     = outbox (snd (route (AuthV2.resetPassword env req) w)).
Proof.
  intros Htok. apply String.eqb_neq in Htok.
  split; [|split; [|split]].
  - unfold AuthV1.validateResetToken, AuthV2.validateResetToken.
    now rewrite Htok.
  - unfold AuthV1.forgotPassword, AuthV2.forgotPassword. run.
    destruct (body_email req) as [| |b|n|mail|]; simpl; try reflexivity.
    destruct (String.eqb mail ""); simpl; [reflexivity|].
    unfold findOne. destruct (list_find _ (db w)) as [[i u]|]; reflexivity.
  - unfold AuthV1.forgotPassword, AuthV2.forgotPassword. run.
    destruct (body_email req) as [| |b|n|mail|]; simpl; try (now left).
    destruct (String.eqb mail ""); simpl; [now left|].
    unfold findOne. destruct (list_find _ (db w)) as [[i u]|]; simpl;
      [now left | now right].
  - unfold AuthV1.resetPassword, AuthV2.resetPassword. rewrite Htok. run.
    destruct (body_password req) as [| |b|n|p|]; simpl; try (repeat split; reflexivity).
    destruct (_ || _)%bool eqn:Hpol; simpl; [repeat split; reflexivity|].
    unfold findOne.
    destruct (list_find _ (db w)) as [[i u]|] eqn:Hfind; simpl;
      [|repeat split; reflexivity].
    pose proof (accepted_length p Hpol) as Hp.
    pose proof (hash_minlength p (routeSalt env)) as Hh.
    unfold save, validate, setReset, setPassword, preSave. simpl.
    destruct (String.eqb_spec (bcrypt_hash p (routeSalt env)) (password u)) as [H1 | H1];
    destruct (String.eqb_spec p (password u)) as [H2 | H2]; simpl;
      rewrite !validatePaths_long by (simpl; congruence || assumption);
      simpl;
      destruct (_ ++ _)%list; simpl; repeat split; try reflexivity;
      now rewrite !list_fmap_insert.
Qed.

End Revisions.

Lemma revisions_agree_witness :
  let req := withToken (randomBytesHex Scenario.env0) (Js.JStr "NewStr0ng!1") in
  fst (route (AuthV1.resetPassword (B := symbolic_bcrypt) Scenario.env1 req) Scenario.asked)
  = json 200 true "Password has been reset successfully"
  /\ fst (route (AuthV1.resetPassword (B := symbolic_bcrypt) Scenario.env1 req) Scenario.asked)
     = fst (route (AuthV2.resetPassword (B := symbolic_bcrypt) Scenario.env1 req)
                  Scenario.asked).
Proof.
  split; [reflexivity|].
  refine (proj1 (proj2 (proj2 (proj2 (revisions_agree (B := symbolic_bcrypt)
            (L := symbolic_bcrypt_laws) Scenario.env1
            (withToken (randomBytesHex Scenario.env0) (Js.JStr "NewStr0ng!1"))
            Scenario.asked _))))).
  discriminate.
Defined.

(** ** Inputs the handlers do not check *)

Section Unchecked.
Context {B : Bcrypt}.

(** Register checks the name and the password, not the address: with both
    of them accepted, a request whose [email] is missing or not a string
    makes [email.trim()] throw, and one whose [email] is blank fails the
    schema's [required] validator; either way the answer is 500 from the
    error handler, not 400, and nothing is stored. *)
Theorem register_unchecked_email env req w :
  AuthV2.nameRefused (body_fullName req) w = (Ok false, w) ->
  AuthV2.registerRefuses (body_password req) = false ->
  (forall u, In u (db w) -> email u <> "") ->
  (forall s, body_email req = Js.JStr s -> Js.trim s = "") ->
  res_status (fst (route (AuthV2.register env req) w)) = 500
  /\ res_success (fst (route (AuthV2.register env req) w)) = false
  /\ snd (route (AuthV2.register env req) w) = w.
Proof.
  intros Hname Hpol Hstore Hblank.
  assert (Hrun : exists msg,
             route (AuthV2.register env req) w = (json 500 false msg, w)).
  { unfold AuthV2.register, route, bind. rewrite Hname, Hpol.
    destruct (body_password req) as [| |b|n|pass|]; try discriminate Hpol.
    unfold AuthV2.nameRefused, bind in Hname.
    destruct (negb (Js.truthy (body_fullName req))); [discriminate Hname|].
    destruct (body_fullName req) as [| |b|n|name|]; try discriminate Hname.
    unfold theString, ret.
    destruct (body_email req) as [| |b|n|mail|];
      try (eexists; reflexivity).
    cbv beta iota. rewrite (Hblank mail eq_refl).
    rewrite (findOne_none (byEmail (Js.toLowerCase "")) w).
    2:{ apply absent_not_found. exact Hstore. }
    unfold freshId, save, newUser, validate, validatePaths. simpl.
    destruct (String.eqb (Js.trim (Js.trim name)) ""); simpl;
      eexists; reflexivity. }
  destruct Hrun as [msg ->]. repeat split.
Qed.

(** Login checks that the password is there, not that it is a string: a
    password that is truthy and not a string is answered 400 "Invalid email
    or password" when no document holds the address, and 500 when one does,
    because bcryptjs rejects the argument. *)
Theorem login_unchecked_password env req mail (w1 w2 : World) i u :
  body_email req = Js.JStr mail -> mail <> "" ->
  Js.truthy (body_password req) = true ->
  Js.typeof (body_password req) <> "string" ->
  (forall v, In v (db w1) -> email v <> Js.toLowerCase (Js.trim mail)) ->
  list_find (fun u => byEmail (Js.toLowerCase (Js.trim mail)) u = true) (db w2)
    = Some (i, u) ->
  route (AuthV2.login env req) w1 = (json 400 false "Invalid email or password", w1)
  /\ route (AuthV2.login env req) w2
     = (json 500 false
          ("Illegal arguments: " ++ Js.typeof (body_password req) ++ ", string"), w2).
Proof.
  intros Hmail Hne Htruthy Htype Habs Hfind. apply String.eqb_neq in Hne.
  unfold AuthV2.login, route, bind. rewrite Hmail, Htruthy. simpl. rewrite Hne. simpl.
  split.
  - now rewrite (findOne_none _ _ (absent_not_found _ _ Habs)).
  - rewrite (findOne_found _ _ _ _ Hfind). unfold comparePassword.
    destruct (body_password req) as [| |b|n|p|]; try reflexivity.
    simpl in Htype. contradiction.
Qed.

End Unchecked.

Lemma register_unchecked_email_witness :
  route (AuthV2.register (B := symbolic_bcrypt) Scenario.env0
           (post (Js.JStr "Jane Doe") (Js.JStr "   ") (Js.JStr "Str0ng!Pass")))
        Scenario.registered
  = (json 500 false "User validation failed: email: Path `email` is required.",
     Scenario.registered)
  /\ res_status (fst (route (AuthV2.register (B := symbolic_bcrypt) Scenario.env0
                        (post (Js.JStr "Jane Doe") Js.JUndefined (Js.JStr "Str0ng!Pass")))
                      Scenario.registered)) = 500.
Proof.
  split; [reflexivity|].
  refine (proj1 (register_unchecked_email (B := symbolic_bcrypt) Scenario.env0
            (post (Js.JStr "Jane Doe") Js.JUndefined (Js.JStr "Str0ng!Pass"))
            Scenario.registered eq_refl eq_refl _ _)).
  - intros u [<- | []]. discriminate.
  - intros s. discriminate.
Defined.

Lemma login_unchecked_password_witness :
  let req := post Js.JUndefined (Js.JStr "jane@test.com") (Js.JNum 12345678) in
  route (AuthV2.login (B := symbolic_bcrypt) Scenario.env0 req) Scenario.empty
  = (json 400 false "Invalid email or password", Scenario.empty)
  /\ route (AuthV2.login (B := symbolic_bcrypt) Scenario.env0 req) Scenario.registered
     = (json 500 false "Illegal arguments: number, string", Scenario.registered).
Proof.
  apply (login_unchecked_password (B := symbolic_bcrypt) Scenario.env0
           (post Js.JUndefined (Js.JStr "jane@test.com") (Js.JNum 12345678))
           "jane@test.com" Scenario.empty Scenario.registered 0%nat Scenario.jane);
    try reflexivity; try discriminate.
  intros v [].
Defined.

(** ** The lookup before the insert *)

(** Register never answers with the error handler's "Email already exists":
    on its own, one request after another, a taken address is always caught
    by the lookup before the insert, and the unique index has nothing left
    to refuse. *)
Theorem register_duplicate_caught_by_lookup {B : Bcrypt}
    (env : Env) (req : Request) (w : World) :
  res_message (fst (route (AuthV2.register env req) w)) <> "Email already exists"
  /\ ((exists mail u, body_email req = Js.JStr mail /\ In u (db w)
                      /\ email u = Js.toLowerCase (Js.trim mail)) ->
      AuthV2.nameRefused (body_fullName req) w = (Ok false, w) ->
      AuthV2.registerRefuses (body_password req) = false ->
      route (AuthV2.register env req) w
      = (json 400 false "User with this email already exists", w)).
Proof.
  split.
  - unfold AuthV2.register, AuthV2.nameRefused. run.
    destruct (body_fullName req) as [| |b|n|name|]; simpl; try discriminate;
      try (destruct b; discriminate);
      try (destruct (n =? 0); discriminate).
    destruct (String.eqb name ""); simpl; [discriminate|].
    destruct (Js.length (Js.trim name) <? 2); simpl; [discriminate|].
    destruct (body_password req) as [| |b|n|pass|]; simpl; try discriminate.
    destruct (_ || _)%bool; simpl; [discriminate|].
    destruct (body_email req) as [| |b|n|mail|]; simpl; try discriminate.
    unfold findOne.
    destruct (list_find _ (db w)) as [[i u]|] eqn:Hfind; simpl; [discriminate|].
    unfold save, newUser, preSave. simpl.
    destruct (validate _) as [e|] eqn:Hval; simpl.
    { apply validate_error in Hval as [msgs ->]. discriminate. }
    destruct (emailTaken _ _) eqn:Htaken; simpl; [|discriminate].
    exfalso. apply emailTaken_true in Htaken as (u & Hin & Hu).
    rewrite toLowerCase_idem in Hu.
    rewrite list_find_None, Forall_forall in Hfind.
    apply (Hfind u); [now apply list_elem_of_In | now apply byEmail_true].
  - intros (mail & u & Hmail & Hin & Hu) Hname Hpol.
    destruct (register_taken env req w mail Hmail (ex_intro _ u (conj Hin Hu)))
      as (_ & Hw & Hmsg).
    apply injective_projections; [now apply Hmsg | exact Hw].
Qed.

(** ** From forgot-password to the new password *)

Section Flow.
Context {B : Bcrypt} {L : BcryptLaws B} {I : BcryptIdeal B}.


End Flow.

